(** * fgvclib: the configuration-driven builders, the CUB-200-2011 manifest
  reader and the checkpoint writer, embedded in Rocq.

  Source files covered:
  - [fgvclib/apis/build.py]         ([build_model], [build_optimizer])
  - [fgvclib/apis/save_model.py]    ([save_model])
  - [fgvclib/datasets/datasets.py]  ([FGVCDataset], [CUB_200_2011])

  Python text is modelled by [string] (ASCII text), dictionaries by
  stdpp's [gmap], lists by [list].  Code that raises or touches the
  outside world runs in the state-and-exception monad [Py]. *)

From Stdlib Require Import ZArith String Ascii List QArith.
From stdpp Require Import base gmap strings list.

Open Scope string_scope.
Open Scope Z_scope.
Open Scope list_scope.

(** ** Python string primitives *)

Module PyStr.

(** [str.startswith]. *)
Fixpoint startswith (pre s : string) : bool :=
  match pre, s with
  | EmptyString, _ => true
  | String _ _, EmptyString => false
  | String a pre', String b s' => Ascii.eqb a b && startswith pre' s'
  end.

(** [str.endswith]: some suffix of [s] is [suf]. *)
Fixpoint endswith (suf s : string) : bool :=
  String.eqb suf s ||
  match s with
  | EmptyString => false
  | String _ s' => endswith suf s'
  end.

(** [str.__contains__]: [sub] occurs at some position of [s]. *)
Fixpoint contains (sub s : string) : bool :=
  startswith sub s ||
  match s with
  | EmptyString => false
  | String _ s' => contains sub s'
  end.

(** The ASCII characters for which [str.isspace] holds: TAB, LF, VT, FF,
    CR, the separators FS, GS, RS, US, and the blank. *)
Definition isspace (c : ascii) : bool :=
  let n := nat_of_ascii c in
  ((9 <=? n)%nat && (n <=? 13)%nat) ||
  ((28 <=? n)%nat && (n <=? 32)%nat).

(** [str.split()] without separator: the maximal runs of characters that
    are not white space, in order; [word] is the run being read. *)
Fixpoint split_ws_from (word s : string) : list string :=
  match s with
  | EmptyString => if String.eqb word "" then [] else [word]
  | String c s' =>
      if isspace c
      then (if String.eqb word "" then split_ws_from "" s'
            else word :: split_ws_from "" s')
      else split_ws_from (word +:+ String c "") s'
  end.

(** The line terminator kept by [readlines]. *)
Definition newline : string := String (ascii_of_nat 10) "".

Definition split_ws (s : string) : list string := split_ws_from "" s.

(** [str.split(sep)] for a one-character separator: every occurrence
    cuts, so a text with [n] separators has [n + 1] fields. *)
Fixpoint split_on (sep : ascii) (s : string) : list string :=
  match s with
  | EmptyString => [""]
  | String c s' =>
      if Ascii.eqb c sep then "" :: split_on sep s'
      else match split_on sep s' with
           | [] => [String c ""]
           | field :: fields => String c field :: fields
           end
  end.

(** The characters [int] skips around an ASCII literal: TAB, LF, VT, FF,
    CR and the blank.  The separators FS, GS, RS and US are white space
    for [str.split] but not here: [int] rejects a text that has one. *)
Definition isspace_literal (c : ascii) : bool :=
  let n := nat_of_ascii c in
  ((9 <=? n)%nat && (n <=? 13)%nat) || (n =? 32)%nat.

Fixpoint lstrip_ws (s : string) : string :=
  match s with
  | EmptyString => ""
  | String c s' => if isspace_literal c then lstrip_ws s' else s
  end.

Fixpoint rstrip_ws (s : string) : string :=
  match s with
  | EmptyString => ""
  | String c s' =>
      match rstrip_ws s' with
      | EmptyString => if isspace_literal c then "" else String c ""
      | rest => String c rest
      end
  end.

Definition digit_value (c : ascii) : option Z :=
  let n := nat_of_ascii c in
  if ((48 <=? n)%nat && (n <=? 57)%nat)%bool
  then Some (Z.of_nat n - 48) else None.

(** The digit part of an integer literal: decimal digits, with single
    underscores allowed between two digits. [after_digit] says that the
    previous character was a digit. *)
Fixpoint digits_from (acc : Z) (after_digit : bool) (s : string) : option Z :=
  match s with
  | EmptyString => if after_digit then Some acc else None
  | String c s' =>
      match digit_value c with
      | Some d => digits_from (10 * acc + d) true s'
      | None =>
          if (Ascii.eqb c "_" && after_digit)%bool
          then digits_from acc false s'
          else None
      end
  end.

(** The number of decimal digits in the text. *)
Fixpoint count_digits (s : string) : nat :=
  match s with
  | EmptyString => 0%nat
  | String c s' =>
      match digit_value c with
      | Some _ => S (count_digits s')
      | None => count_digits s'
      end
  end.

(** The interpreter's default limit on the digits of a decimal literal
    ([sys.int_info.default_max_str_digits]). *)
Definition max_str_digits : nat := 4300.

(** The unsigned part of a literal, within the digit limit. *)
Definition literal (ds : string) : option Z :=
  if (count_digits ds <=? max_str_digits)%nat then digits_from 0 false ds else None.

(** [int(text)] on ASCII text: the white space of [isspace_literal]
    around the literal is dropped, one sign is accepted, the rest is read
    in base ten; [None] is [ValueError]. *)
Definition int (text : string) : option Z :=
  match rstrip_ws (lstrip_ws text) with
  | String "-" ds => Z.opp <$> literal ds
  | String "+" ds => literal ds
  | ds => literal ds
  end.

End PyStr.

(** ** [os.path] on POSIX paths *)

Module op.

(** One step of [posixpath.join]: an absolute component restarts the
    path, otherwise it is appended after exactly one separator. *)
Definition join2 (path b : string) : string :=
  if PyStr.startswith "/" b then b
  else if (String.eqb path "" || PyStr.endswith "/" path)%bool then path +:+ b
  else path +:+ "/" +:+ b.

Definition join (a : string) (p : list string) : string :=
  fold_left join2 p a.

(** [p[:i], p[i:]] for [i = p.rfind('/') + 1]. *)
Fixpoint rsplit_sep (p : string) : string * string :=
  match p with
  | EmptyString => ("", "")
  | String c p' =>
      match rsplit_sep p' with
      | (EmptyString, tail) =>
          if Ascii.eqb c "/" then ("/", tail) else ("", String c tail)
      | (head, tail) => (String c head, tail)
      end
  end.

Definition basename (p : string) : string := snd (rsplit_sep p).

Fixpoint all_sep (s : string) : bool :=
  match s with
  | EmptyString => true
  | String c s' => Ascii.eqb c "/" && all_sep s'
  end.

Fixpoint rstrip_sep (s : string) : string :=
  match s with
  | EmptyString => ""
  | String c s' =>
      match rstrip_sep s' with
      | EmptyString => if Ascii.eqb c "/" then "" else String c ""
      | rest => String c rest
      end
  end.

Definition dirname (p : string) : string :=
  let head := fst (rsplit_sep p) in
  if (negb (String.eqb head "") && negb (all_sep head))%bool
  then rstrip_sep head else head.

End op.

(** ** Exceptions, outcomes and the [Py] monad *)

(** The registries of the library, one per category of component. *)
Inductive registry_kind :=
| Backbones | Encoders | Necks | Heads | Criterions | Models | Optimizers.

(** A dictionary key: a string or an integer. *)
Inductive key :=
| KStr (s : string)
| KInt (i : Z).

Inductive exn :=
| KeyError (k : key)
| AttributeError (attr : string)
| ValueError (text : string)
| AssertionError (text : string)
| NotFound (kind : registry_kind) (name : string)
| DuplicateName (kind : registry_kind) (name : string)
| OSError (path : string).

(** How a call ends: it returns, an exception unwinds to the caller, or
    [exit()] was called and the interpreter shuts down. *)
Inductive outcome (A : Type) :=
| Returned (a : A)
| Raised (e : exn)
| Exited.

Arguments Returned {A} a.
Arguments Raised {A} e.
Arguments Exited {A}.

(** What the code does to the outside, in the order it does it. *)
Inductive event :=
| EvGet (kind : registry_kind) (name : string)
| EvPrint (text : string)
| EvLog (text : string)
| EvLogClose
| EvWget (url out : string)
| EvExtract (package dest : string).

(** A learning rate.  The builders only copy rates from the config into
    parameter groups, so a rational stands for the float. *)
Definition Rate : Type := Q.

(** The deep-learning framework's objects are opaque to this library:
    they are built by registered constructors and handed on. *)
Class Torch := {
  Tensor : Type;
  StateDict : Type;
  Backbone : Type;
  Encoder : Type;
  Neck : Type;
  Head : Type;
  Criterion : Type;
  FGVCSOTA : Type;
  Optimizer : Type;
  Weight : Type;
  ArgsList : Type;
  ArgsDict : Type;
  (** [fgvclib.configs.utils.turn_list_to_dict] *)
  tltd : ArgsList -> ArgsDict;
  (** [model.state_dict()] *)
  state_dict : FGVCSOTA -> StateDict
}.

(** The file system and the calls that reach it; [None] is the call
    raising.  A call that raises leaves the file system as it was. *)
Class OS `{Torch} := {
  FS : Type;
  path_exists : FS -> string -> bool;
  mkdir : FS -> string -> option FS;
  listdir : FS -> string -> option (list string);
  readlines : FS -> string -> option (list string);
  torch_save : FS -> StateDict -> string -> option FS;
  wget_download : FS -> string -> string -> option FS;
  gz_unpack : FS -> string -> string -> option FS;
  tar_extractall : FS -> string -> string -> option FS
}.

Section PyMonad.

Context `{OS}.

Record World := { fs : FS; trace : list event }.

Definition Py (A : Type) : Type := World -> outcome A * World.

Definition ret {A} (a : A) : Py A := fun w => (Returned a, w).

Definition bind {A B} (c : Py A) (k : A -> Py B) : Py B :=
  fun w =>
    match c w with
    | (Returned a, w') => k a w'
    | (Raised e, w') => (Raised e, w')
    | (Exited, w') => (Exited, w')
    end.

Definition raise {A} (e : exn) : Py A := fun w => (Raised e, w).

(** [exit()] *)
Definition exit {A} : Py A := fun w => (Exited, w).

Definition lift {A} (o : outcome A) : Py A := fun w => (o, w).

Definition emit (ev : event) : Py unit :=
  fun w => (Returned tt, {| fs := fs w; trace := trace w ++ [ev] |}).

(** [try: body / except: handler] with a bare [except], which also
    catches [SystemExit]. *)
Definition try_except {A} (body handler : Py A) : Py A :=
  fun w =>
    match body w with
    | (Returned a, w') => (Returned a, w')
    | (_, w') => handler w'
    end.

(** A file-system call that may change the file system. *)
Definition os_update (call : FS -> option FS) (path : string) : Py unit :=
  fun w =>
    match call (fs w) with
    | Some fs' => (Returned tt, {| fs := fs'; trace := trace w |})
    | None => (Raised (OSError path), w)
    end.

(** A file-system call that only reads. *)
Definition os_read {A} (call : FS -> option A) (path : string) : Py A :=
  fun w =>
    match call (fs w) with
    | Some a => (Returned a, w)
    | None => (Raised (OSError path), w)
    end.

End PyMonad.

Notation "x <- c ;; k" := (bind c (fun x => k))
  (at level 100, c at next level, right associativity).
Notation "c ;;; k" := (bind c (fun _ => k))
  (at level 100, right associativity).

Section Loops.

Context `{OS}.

(** [for x in xs: acc = body(x, acc)] *)
Fixpoint for_each {A S} (xs : list A) (body : A -> S -> Py S) (acc : S) : Py S :=
  match xs with
  | [] => ret acc
  | x :: xs' => acc' <- body x acc ;; for_each xs' body acc'
  end.

(** Python's truth value of a string. *)
Definition truthy (s : string) : bool := negb (String.eqb s "").

(** [d[key]] on a dictionary. *)
Definition getitem {V} (d : gmap string V) (key : string) : Py V :=
  match d !! key with
  | Some v => ret v
  | None => raise (KeyError (KStr key))
  end.

(** [node.attr] on a config node, which raises [AttributeError] for a
    key it does not hold. *)
Definition getattr {V} (node : gmap string V) (attr : string) : Py V :=
  match node !! attr with
  | Some v => ret v
  | None => raise (AttributeError attr)
  end.

End Loops.

(** ** Registries *)

Section Registry.

Context `{OS}.

(** What [register] does with a name that is already taken; the spec
    leaves it open, so both behaviours are modelled. *)
Inductive duplicate_policy := RejectDuplicate | OverwriteDuplicate.

(** Modelled from the spec: the registry modules ([fgvclib.models.backbones],
    [fgvclib.optimizers], ... with their [get_*] functions and registration
    decorators) are not part of the source files at hand.  A registry is a
    mapping from string name to constructor, looked up by exact key;
    [register(name, constructor)] adds a binding. *)
Definition register {C} (policy : duplicate_policy) (kind : registry_kind)
    (name : string) (constructor : C) (reg : gmap string C)
  : outcome (gmap string C) :=
  match policy, reg !! name with
  | RejectDuplicate, Some _ => Raised (DuplicateName kind name)
  | _, _ => Returned (<[name := constructor]> reg)
  end.

(** Modelled from the spec: [get(name)] returns the constructor stored
    under [name] and fails with a NotFound error if [name] is absent.  The
    lookup is recorded in the trace. *)
Definition get {C} (kind : registry_kind) (reg : gmap string C)
    (name : string) : Py C :=
  emit (EvGet kind name) ;;;
  match reg !! name with
  | Some constructor => ret constructor
  | None => raise (NotFound kind name)
  end.

(** The registry after the registrations [regs], made in order at
    process start. *)
Fixpoint populate {C} (policy : duplicate_policy) (kind : registry_kind)
    (regs : list (string * C)) (reg : gmap string C)
  : outcome (gmap string C) :=
  match regs with
  | [] => Returned reg
  | (name, constructor) :: regs' =>
      match register policy kind name constructor reg with
      | Returned reg' => populate policy kind regs' reg'
      | Raised e => Raised e
      | Exited => Exited
      end
  end.

End Registry.

(** ** [fgvclib/apis/build.py] *)

Section Build.

Context `{OS}.

(** A config node with a [NAME] and its [ARGS]. *)
Record CfgNode := { NAME : string; ARGS : ArgsList }.

(** An item of [MODEL.CRITERIONS]. *)
Record criterion_cfg := { name : string; args : ArgsList; w : Weight }.

Record model_cfg := {
  MODEL_NAME : string;
  CLASS_NUM : Z;
  BACKBONE : CfgNode;
  ENCODER : CfgNode;
  NECKS : CfgNode;
  HEADS : CfgNode;
  CRITERIONS : list criterion_cfg
}.

(** An entry of the [criterions] dictionary: [{"fn": ..., "w": ...}]. *)
Record criterion_entry := { fn : Criterion; cw : Weight }.

(** A [torch.nn.Parameter], as [named_parameters()] yields it under its
    qualified name. *)
Record param := { data : Tensor; requires_grad : bool }.

Record Module := { named_parameters : list (string * param) }.

Inductive Model :=
| Plain (m : Module)
| DataParallel (module : Module)
| DistributedDataParallel (module : Module).

(** A parameter group: [{'params': p, 'lr': rate}]. *)
Record param_group := { params : param; lr : Rate }.

Record optim_cfg := {
  OPTIM_NAME : string;
  OPTIM_ARGS : ArgsList;
  LR : gmap string Rate
}.

(** The registries the builders read, with the signatures the builders
    call the constructors at. *)
Record registries := {
  backbones : gmap string (ArgsDict -> outcome Backbone);
  encoders : gmap string (ArgsDict -> outcome Encoder);
  necks : gmap string (ArgsDict -> outcome Neck);
  heads : gmap string (Z -> ArgsDict -> outcome Head);
  criterions : gmap string (ArgsDict -> outcome Criterion);
  models : gmap string (model_cfg -> Backbone -> option Encoder -> option Neck
                        -> Head -> gmap string criterion_entry -> outcome FGVCSOTA);
  optimizers : gmap string (list param_group -> Rate -> ArgsDict -> outcome Optimizer)
}.

Variable R : registries.

Definition get_backbone := get Backbones (backbones R).
Definition get_encoder := get Encoders (encoders R).
Definition get_neck := get Necks (necks R).
Definition get_head := get Heads (heads R).
Definition get_criterion := get Criterions (criterions R).
Definition get_model := get Models (models R).
Definition get_optimizer := get Optimizers (optimizers R).

Definition build_criterion (criterion_cfg : criterion_cfg) : Py Criterion :=
  criterion_builder <- get_criterion (name criterion_cfg) ;;
  lift (criterion_builder (tltd (args criterion_cfg))).

Definition build_model (model_cfg : model_cfg) : Py FGVCSOTA :=
  backbone_builder <- get_backbone (NAME (BACKBONE model_cfg)) ;;
  backbone <- lift (backbone_builder (tltd (ARGS (BACKBONE model_cfg)))) ;;
  encoder <-
    (if truthy (NAME (ENCODER model_cfg)) then
       encoder_builder <- get_encoder (NAME (ENCODER model_cfg)) ;;
       encoder <- lift (encoder_builder (tltd (ARGS (ENCODER model_cfg)))) ;;
       ret (Some encoder)
     else ret None) ;;
  necks <-
    (if truthy (NAME (NECKS model_cfg)) then
       neck_builder <- get_neck (NAME (NECKS model_cfg)) ;;
       necks <- lift (neck_builder (tltd (ARGS (NECKS model_cfg)))) ;;
       ret (Some necks)
     else ret None) ;;
  head_builder <- get_head (NAME (HEADS model_cfg)) ;;
  heads <- lift (head_builder (CLASS_NUM model_cfg) (tltd (ARGS (HEADS model_cfg)))) ;;
  criterions <-
    for_each (CRITERIONS model_cfg)
      (fun item criterions =>
         fn <- build_criterion item ;;
         ret (<[name item := {| fn := fn; cw := w item |}]> criterions))
      ∅ ;;
  model_builder <- get_model (MODEL_NAME model_cfg) ;;
  lift (model_builder model_cfg backbone encoder necks heads criterions).

Definition model_attrs : list string := ["backbone"; "encoder"; "necks"; "heads"].

Definition build_optimizer (optim_cfg : optim_cfg) (model : Model) : Py Optimizer :=
  let m := match model with
           | DataParallel module | DistributedDataParallel module => module
           | Plain m => m
           end in
  params <-
    for_each (named_parameters m)
      (fun '(n, p) (params : list param_group) =>
         let is_other := true in
         if requires_grad p then
           bind
             (for_each model_attrs
                (fun attr '((is_other, params) : bool * list param_group) =>
                   if PyStr.contains attr n then
                     let is_other := false in
                     rate <- getitem (LR optim_cfg) attr ;;
                     ret (is_other, params ++ [{| params := p; lr := rate |}])
                   else ret (is_other, params))
                (is_other, params))
             (fun '(is_other, params) =>
                if (is_other : bool) then
                  rate <- getitem (LR optim_cfg) "base" ;;
                  ret (params ++ [{| params := p; lr := rate |}])
                else ret params)
         else ret params)
      [] ;;
  optimizer_builder <- get_optimizer (OPTIM_NAME optim_cfg) ;;
  base <- getattr (LR optim_cfg) "base" ;;
  lift (optimizer_builder params base (tltd (OPTIM_ARGS optim_cfg))).

End Build.

(** ** [fgvclib/apis/save_model.py] *)

Section SaveModel.

Context `{OS}.

(** [os.path.exists] *)
Definition os_path_exists (path : string) : Py bool :=
  fun w => (Returned (path_exists (fs w) path), w).

(** [os.mkdir] *)
Definition os_mkdir (path : string) : Py unit :=
  os_update (fun fs => mkdir fs path) path.

(** [torch.save(obj, path)] *)
Definition torch_save_to (obj : StateDict) (path : string) : Py unit :=
  os_update (fun fs => torch_save fs obj path) path.

(** The [Logger] object handed to [save_model]: calling it writes a
    line, [close] closes it. *)
Definition logger (text : string) : Py unit := emit (EvLog text).
Definition logger_close : Py unit := emit EvLogClose.

(** The [WEIGHT] node of the root config. *)
Record weight_cfg := { WEIGHT_NAME : string; WEIGHT_SAVE_DIR : string }.

Definition save_model (cfg : weight_cfg) (model : FGVCSOTA) : Py unit :=
  if truthy (WEIGHT_NAME cfg) then
    dir_exists <- os_path_exists (WEIGHT_SAVE_DIR cfg) ;;
    (if negb dir_exists then
       try_except
         (os_mkdir (WEIGHT_SAVE_DIR cfg))
         (logger ("Cannot create save dir under " +:+ WEIGHT_SAVE_DIR cfg) ;;;
          logger_close ;;;
          exit)
     else ret tt) ;;;
    let save_path := op.join (WEIGHT_SAVE_DIR cfg) [WEIGHT_NAME cfg] in
    torch_save_to (state_dict model) save_path ;;;
    logger ("Saving checkpoint to " +:+ save_path)
  else ret tt.

End SaveModel.

(** ** [fgvclib/datasets/datasets.py] *)

Section Datasets.

Context `{OS}.

Definition print (text : string) : Py unit := emit (EvPrint text).

(** [with open(path) as f: lines = f.readlines()] *)
Definition open_readlines (path : string) : Py (list string) :=
  os_read (fun fs => readlines fs path) path.

(** [os.listdir] *)
Definition os_listdir (path : string) : Py (list string) :=
  os_read (fun fs => listdir fs path) path.

(** [wget.download(url, out)] *)
Definition wget_download_to (url out : string) : Py unit :=
  emit (EvWget url out) ;;;
  os_update (fun fs => wget_download fs url out) out.

(** [FGVCDataset._un_gz] *)
Definition _un_gz (package : string) : Py unit :=
  os_update (fun fs => gz_unpack fs package (op.basename package)) package.

(** [FGVCDataset._un_tgz] *)
Definition _un_tgz (package : string) : Py unit :=
  let dest := op.join (op.dirname package)
                [hd "" (PyStr.split_on "." (op.basename package))] in
  emit (EvExtract package dest) ;;;
  os_update (fun fs => tar_extractall fs package dest) package.

(** [FGVCDataset._extract_file] *)
Definition _extract_file (package : string) : Py unit :=
  if PyStr.endswith ".gz" package then _un_gz package
  else if PyStr.endswith ".tar" package then ret tt
  else if PyStr.endswith ".zip" package then ret tt
  else if PyStr.endswith ".tgz" package then _un_tgz package
  else ret tt.

(** The class attributes of [CUB_200_2011]. *)
Definition cub_name : string := "Caltech-UCSD Birds-200-2011".
Definition download_link : string :=
  "https://data.caltech.edu/records/65de6-vp158/files/CUB_200_2011.tgz?download=1".
Definition annotation_file : string := "CUB_200_2011/CUB_200_2011/classes.txt".
Definition image_dir : string := "CUB_200_2011/CUB_200_2011/images/".
Definition split_file : string := "CUB_200_2011/CUB_200_2011/train_test_split.txt".
Definition images_list_file : string := "CUB_200_2011/CUB_200_2011/images.txt".

(** A [CUB_200_2011] object. *)
Record CUB_200_2011 := {
  root : string;
  category2index : gmap string Z;
  index2category : gmap Z string;
  samples : list string
}.

(** [CUB_200_2011._load_samples] *)
Definition _load_samples (root split : string) : Py (list string) :=
  let mode := if String.eqb split "train" then "1" else "0" in
  lines <- open_readlines (op.join root [split_file]) ;;
  image_ids <-
    for_each lines
      (fun line (image_ids : list string) =>
         match PyStr.split_ws line with
         | [image_id; is_train] =>
             if String.eqb mode is_train
             then ret (image_ids ++ [image_id])
             else ret image_ids
         | _ => raise (ValueError line)
         end)
      [] ;;
  lines <- open_readlines (op.join root [split_file]) ;;
  for_each lines
    (fun line (samples : list string) =>
       match PyStr.split_ws line with
       | [image_id; image_path] =>
           if existsb (String.eqb image_id) image_ids
           then ret (samples ++ [op.join root [image_dir; image_path]])
           else ret samples
       | _ => raise (ValueError line)
       end)
    [].

(** [CUB_200_2011._load_categories] *)
Definition _load_categories (root : string)
  : Py (gmap string Z * gmap Z string) :=
  let image_dir := op.join root [image_dir] in
  sub_dirs <- os_listdir image_dir ;;
  for_each sub_dirs
    (fun name '((category2index, index2category) : gmap string Z * gmap Z string) =>
       match PyStr.split_on "." name with
       | [index; category] =>
           match PyStr.int index with
           | Some i =>
               ret (<[category := i - 1]> category2index,
                    <[i - 1 := category]> index2category)
           | None => raise (ValueError index)
           end
       | _ => raise (ValueError name)
       end)
    (∅, ∅).

(** [CUB_200_2011.download] *)
Definition download (root : string) (overwrite : bool) : Py unit :=
  present <- os_path_exists (op.join root ["CUB_200_2011"]) ;;
  if (present && negb overwrite)%bool then
    print "The dataset already exist!"
  else
    fetched <- os_path_exists (op.join root ["CUB_200_2011.tgz"]) ;;
    (if negb fetched
     then wget_download_to download_link (op.join root ["CUB_200_2011.tgz"])
     else ret tt) ;;;
    _extract_file (op.join root ["CUB_200_2011.tgz"]) ;;;
    print (cub_name +:+ " dataset is ready.").

(** [CUB_200_2011.__init__] *)
Definition CUB_200_2011_init (root mode : string) (with_download : bool)
  : Py CUB_200_2011 :=
  if negb (existsb (String.eqb mode) ["train"; "test"])
  then raise (AssertionError "The train")
  else
    (if with_download then download root false else ret tt) ;;;
    categories <- _load_categories root ;;
    samples <- _load_samples root mode ;;
    ret {| root := root;
           category2index := fst categories;
           index2category := snd categories;
           samples := samples |}.

(** [FGVCDataset.encode_category] *)
Definition encode_category (self : CUB_200_2011) (category : string) : outcome Z :=
  match category2index self !! category with
  | Some index => Returned index
  | None => Raised (KeyError (KStr category))
  end.

(** [FGVCDataset.decode_category] *)
Definition decode_category (self : CUB_200_2011) (index : Z) : outcome string :=
  match index2category self !! index with
  | Some category => Returned category
  | None => Raised (KeyError (KInt index))
  end.

(** [FGVCDataset.get_categories] *)
Definition get_categories (self : CUB_200_2011) : list string :=
  (map_to_list (category2index self)).*1.

End Datasets.

(** ** A small concrete platform, for running the code on examples *)

Module Toy.

(** Framework objects are named by strings; a model remembers the parts
    it was built from, an optimizer its groups and its default rate. *)
#[export] Instance torch : Torch := {|
  Tensor := nat;
  StateDict := string;
  Backbone := string;
  Encoder := string;
  Neck := string;
  Head := string;
  Criterion := string;
  FGVCSOTA := string * option string * option string * string;
  Optimizer := list (nat * Rate) * Rate;
  Weight := Z;
  ArgsList := list (string * string);
  ArgsDict := gmap string string;
  tltd := list_to_map;
  state_dict := fun model => fst (fst (fst model))
|}.

Inductive node :=
| Dir
| File (lines : list string)
| Archive (members : list (string * list string)).

(** Paths present on disk, and what each URL serves. *)
Record disk := {
  nodes : gmap string node;
  remote : gmap string (list (string * list string))
}.

(** A path names the same node with or without trailing separators. *)
Definition norm (path : string) : string :=
  if op.all_sep path then path else op.rstrip_sep path.

Definition is_dir (d : disk) (path : string) : bool :=
  match nodes d !! norm path with
  | Some Dir => true
  | _ => false
  end.

Definition put (path : string) (n : node) (d : disk) : disk :=
  {| nodes := <[norm path := n]> (nodes d); remote := remote d |}.

Definition toy_mkdir (d : disk) (path : string) : option disk :=
  match nodes d !! norm path with
  | Some _ => None
  | None => if is_dir d (op.dirname (norm path)) then Some (put path Dir d) else None
  end.

Definition toy_listdir (d : disk) (path : string) : option (list string) :=
  if is_dir d path then
    Some (omap (fun '(child, _) =>
                  if (String.eqb (op.dirname child) (norm path)
                      && negb (String.eqb child (norm path)))%bool
                  then Some (op.basename child) else None)
               (map_to_list (nodes d)))
  else None.

Definition toy_readlines (d : disk) (path : string) : option (list string) :=
  match nodes d !! norm path with
  | Some (File lines) => Some lines
  | _ => None
  end.

Definition toy_write (d : disk) (path : string) (n : node) : option disk :=
  if (is_dir d (op.dirname (norm path)) && negb (is_dir d path))%bool
  then Some (put path n d) else None.

Definition toy_wget (d : disk) (url out : string) : option disk :=
  match remote d !! url with
  | Some members => toy_write d out (Archive members)
  | None => None
  end.

Definition toy_extract (d : disk) (package dest : string) : option disk :=
  match nodes d !! norm package with
  | Some (Archive members) =>
      Some (foldr (fun '(member, lines) d => put (op.join dest [member]) (File lines) d)
                  (put dest Dir d) members)
  | _ => None
  end.

#[export] Instance os : OS := {|
  FS := disk;
  path_exists := fun d path => bool_decide (is_Some (nodes d !! norm path));
  mkdir := toy_mkdir;
  listdir := toy_listdir;
  readlines := toy_readlines;
  torch_save := fun d obj path => toy_write d path (File [obj]);
  wget_download := toy_wget;
  gz_unpack := fun _ _ _ => None;
  tar_extractall := toy_extract
|}.

(** A disk holding the given nodes, nothing served remotely, nothing
    done yet. *)
Definition world_of (ns : list (string * node)) : World :=
  {| fs := {| nodes := list_to_map ns; remote := ∅ |}; trace := [] |}.

End Toy.

(** ** Vocabulary of the statements *)

Section TextVocabulary.

(** No separator occurs in the text. *)
Fixpoint sep_free (s : string) : bool :=
  match s with
  | EmptyString => true
  | String c s' => negb (Ascii.eqb c "/") && sep_free s'
  end.

(** No dot occurs in the text. *)
Fixpoint dot_free (s : string) : bool :=
  match s with
  | EmptyString => true
  | String c s' => negb (Ascii.eqb c ".") && dot_free s'
  end.

(** The directory name is [<index>.<name>]: an integer literal, a dot,
    and a category name, with no other dot. *)
Definition entry_form (name : string) (index : Z) (category : string) : Prop :=
  exists digits,
    name = digits +:+ "." +:+ category /\
    dot_free digits = true /\ dot_free category = true /\
    PyStr.int digits = Some index.

End TextVocabulary.

Section DictVocabulary.

Context {K V : Type} `{Countable K}.

(** [for k, v in kvs: d[k] = v] *)
Definition fill (kvs : list (K * V)) (d : gmap K V) : gmap K V :=
  fold_left (fun d kv => <[kv.1 := kv.2]> d) kvs d.

End DictVocabulary.

Section BuilderVocabulary.

Context `{OS}.

(** Every run of [c] leaves the file system alone, appends only events
    satisfying [P] to the trace, and, if it returns, returns a value
    satisfying [Q]. *)
Definition builds {A} (c : Py A) (P : event -> Prop) (Q : A -> Prop) : Prop :=
  forall w, exists evs,
    snd (c w) = {| fs := fs w; trace := trace w ++ evs |} /\
    Forall P evs /\
    forall a, fst (c w) = Returned a -> Q a.

(** The event is not a lookup in the registry [kind]. *)
Definition not_get (kind : registry_kind) (ev : event) : Prop :=
  forall name, ev <> EvGet kind name.

(** How an optional part relates to its config node: absent for an
    empty name, otherwise built by the constructor registered under the
    name from the node's arguments. *)
Definition optional_part {X} (reg : gmap string (ArgsDict -> outcome X))
    (node : CfgNode) (part : option X) : Prop :=
  if truthy (NAME node)
  then exists builder x,
         reg !! NAME node = Some builder /\
         builder (tltd (ARGS node)) = Returned x /\ part = Some x
  else part = None.

(** No lookup in the encoder registry if the encoder has no name, none
    in the neck registry if the neck has no name. *)
Definition skips_unnamed (cfg : model_cfg) (ev : event) : Prop :=
  (NAME (ENCODER cfg) = "" -> not_get Encoders ev) /\
  (NAME (NECKS cfg) = "" -> not_get Necks ev).

(** [model.module] for a wrapped model, the model itself otherwise. *)
Definition unwrap (model : Model) : Module :=
  match model with
  | DataParallel module | DistributedDataParallel module => module
  | Plain m => m
  end.

(** The component tags that occur in the name, in the order of
    [model_attrs]. *)
Definition matching_tags (n : string) : list string :=
  List.filter (fun attr => PyStr.contains attr n) model_attrs.

(** The keys of [LR] under which a trainable parameter of that name is
    grouped: every matching tag, or ["base"] if there is none. *)
Definition group_keys (n : string) : list string :=
  match matching_tags n with
  | [] => ["base"]
  | tags => tags
  end.

(** The first matching tag, or ["base"]. *)
Definition first_key (n : string) : string :=
  match List.find (fun attr => PyStr.contains attr n) model_attrs with
  | Some tag => tag
  | None => "base"
  end.

(** The group of [p] at the rate stored under [key]. *)
Definition rate_group (rates : gmap string Rate) (p : param) (key : string)
  : option param_group :=
  match rates !! key with
  | Some rate => Some {| params := p; lr := rate |}
  | None => None
  end.

(** The groups one named parameter contributes. *)
Definition groups_for (rates : gmap string Rate) (np : string * param)
  : option (list param_group) :=
  if requires_grad np.2 then mapM (rate_group rates np.2) (group_keys np.1)
  else Some [].

(** The groups that a list of named parameters contributes, in order. *)
Definition groups_of (rates : gmap string Rate) (nps : list (string * param))
  : option (list param_group) :=
  match mapM (groups_for rates) nps with
  | Some segs => Some (concat segs)
  | None => None
  end.

End BuilderVocabulary.

(** ** Inputs of the worked examples *)

Module SaveModelInputs.

Import Toy.

Definition model : FGVCSOTA := ("resnet50", None, None, "fc").

Definition unnamed : weight_cfg := {| WEIGHT_NAME := ""; WEIGHT_SAVE_DIR := "/ckpt" |}.

Definition named : weight_cfg := {| WEIGHT_NAME := "best.pth"; WEIGHT_SAVE_DIR := "/ckpt" |}.

Definition nested : weight_cfg := {| WEIGHT_NAME := "best.pth"; WEIGHT_SAVE_DIR := "/runs/ckpt" |}.

Definition bare : World := world_of [("/", Dir)].

Definition prepared : World := world_of [("/", Dir); ("/ckpt", Dir)].

End SaveModelInputs.

Module DownloadInputs.

Import Toy.

Definition members : list (string * list string) :=
  [("CUB_200_2011/images.txt", ["1 001.Black_footed_Albatross/Black_Footed_Albatross_0046_18.jpg"])].

(** The data set is unpacked already. *)
Definition stocked : World := world_of [("/", Dir); ("/data", Dir); ("/data/CUB_200_2011", Dir)].

(** Only the archive is there. *)
Definition cached : World :=
  world_of [("/", Dir); ("/data", Dir); ("/data/CUB_200_2011.tgz", Archive members)].

(** Nothing is there; the archive can be fetched. *)
Definition online : World :=
  {| fs := {| nodes := list_to_map [("/", Dir); ("/data", Dir)];
              remote := {[ download_link := members ]} |};
     trace := [] |}.

End DownloadInputs.

Module LoadSamplesInputs.

Import Toy.

Definition line (fields : string) : string := fields +:+ PyStr.newline.

Definition split_path : string := "/data/CUB_200_2011/CUB_200_2011/train_test_split.txt".

Definition images_path : string := "/data/CUB_200_2011/CUB_200_2011/images.txt".

(** Image 1 is a training image, image 2 a test image. *)
Definition birds : World :=
  world_of
    [(split_path, File [line "1 1"; line "2 0"]);
     (images_path,
      File [line "1 001.Black_footed_Albatross/Black_Footed_Albatross_0046_18.jpg";
            line "2 001.Black_footed_Albatross/Black_Footed_Albatross_0009_34.jpg"])].

End LoadSamplesInputs.

Module LoadCategoriesInputs.

Import Toy.

Definition images : string := "/data/CUB_200_2011/CUB_200_2011/images".

Definition manifest : string := "/data/CUB_200_2011/CUB_200_2011/train_test_split.txt".

(** Three species, numbered as in the data set. *)
Definition aviary : World :=
  world_of [(manifest, File []);
            (images, Dir);
            (images +:+ "/001.Black_footed_Albatross", Dir);
            (images +:+ "/002.Laysan_Albatross", Dir);
            (images +:+ "/003.Sooty_Albatross", Dir)].

(** Two directories carry the index 1. *)
Definition clash : World :=
  world_of [(manifest, File []);
            (images, Dir); (images +:+ "/1.Gull", Dir); (images +:+ "/1.Tern", Dir)].

(** Two directories carry the name Gull. *)
Definition twice : World :=
  world_of [(manifest, File []);
            (images, Dir); (images +:+ "/1.Gull", Dir); (images +:+ "/2.Gull", Dir)].

Definition aviary_entries : list (Z * string) :=
  [(3, "Sooty_Albatross"); (1, "Black_footed_Albatross"); (2, "Laysan_Albatross")].

End LoadCategoriesInputs.

Module RegistryInputs.

Import Toy.

Definition resnet50 : ArgsDict -> outcome Backbone := fun _ => Returned "resnet50".

Definition vgg16 : ArgsDict -> outcome Backbone := fun _ => Returned "vgg16".

Definition start_up : list (string * (ArgsDict -> outcome Backbone)) :=
  [("resnet50", resnet50); ("vgg16", vgg16)].

Definition registered : gmap string (ArgsDict -> outcome Backbone) :=
  <["vgg16" := vgg16]> (<["resnet50" := resnet50]> ∅).

End RegistryInputs.

Module BuildModelInputs.

Import Toy.

(** Constructors that name what they build. *)
Definition named (what : string) : ArgsDict -> outcome string := fun _ => Returned what.

Definition assemble (cfg : model_cfg) (backbone : Backbone) (encoder : option Encoder)
    (neck : option Neck) (head : Head) (losses : gmap string criterion_entry)
  : outcome FGVCSOTA :=
  Returned (backbone, encoder, neck, head).

Definition library : registries := {|
  backbones := {[ "resnet50" := named "resnet50" ]};
  encoders := {[ "global_max_pooling" := named "global_max_pooling" ]};
  necks := {[ "multi_scale_conv" := named "multi_scale_conv" ]};
  heads := {[ "classifier_1fc" := fun _ => named "classifier_1fc" ]};
  criterions := {[ "cross_entropy_loss" := named "cross_entropy_loss" ]};
  models := {[ "baseline_resnet50" := assemble ]};
  optimizers := ∅
|}.

Definition node (name : string) : CfgNode := {| NAME := name; ARGS := [] |}.

(** A model without encoder and without neck. *)
Definition baseline : model_cfg := {|
  MODEL_NAME := "baseline_resnet50";
  CLASS_NUM := 200;
  BACKBONE := node "resnet50";
  ENCODER := node "";
  NECKS := node "";
  HEADS := node "classifier_1fc";
  CRITERIONS := [{| name := "cross_entropy_loss"; args := []; w := 1 |}]
|}.

(** The same model with both optional parts. *)
Definition full : model_cfg := {|
  MODEL_NAME := "baseline_resnet50";
  CLASS_NUM := 200;
  BACKBONE := node "resnet50";
  ENCODER := node "global_max_pooling";
  NECKS := node "multi_scale_conv";
  HEADS := node "classifier_1fc";
  CRITERIONS := [{| name := "cross_entropy_loss"; args := []; w := 1 |}]
|}.

End BuildModelInputs.

Module BuildOptimizerInputs.

Import Toy.

(** An optimizer that records the groups and the default rate it gets. *)
Definition sgd (groups : list param_group) (base : Rate) (_ : ArgsDict)
  : outcome Optimizer :=
  Returned (map (fun g => (data (params g), lr g)) groups, base).

Definition library : registries := {|
  backbones := ∅; encoders := ∅; necks := ∅; heads := ∅; criterions := ∅; models := ∅;
  optimizers := {[ "SGD" := sgd ]}
|}.

Definition trainable (tensor : nat) : param := {| data := tensor; requires_grad := true |}.

Definition frozen (tensor : nat) : param := {| data := tensor; requires_grad := false |}.

(** The config of the spec's example: two rates only. *)
Definition two_rates : optim_cfg := {|
  OPTIM_NAME := "SGD";
  OPTIM_ARGS := [("momentum", "0.9")];
  LR := <["backbone" := 0.01%Q]> (<["base" := 0.001%Q]> ∅)
|}.

(** A config with a rate for every component. *)
Definition all_rates : optim_cfg := {|
  OPTIM_NAME := "SGD";
  OPTIM_ARGS := [("momentum", "0.9")];
  LR := <["backbone" := 0.01%Q]> (<["encoder" := 0.02%Q]> (<["necks" := 0.03%Q]>
          (<["heads" := 0.04%Q]> (<["base" := 0.001%Q]> ∅))))
|}.

Definition two_layers : Module :=
  {| named_parameters := [("backbone.conv1.weight", trainable 1);
                          ("head.fc.weight", trainable 2)] |}.

(** The name of the second parameter contains [encoder] and [heads]. *)
Definition nested_heads : Module :=
  {| named_parameters := [("backbone.conv1.weight", trainable 1);
                          ("encoder.heads.0.weight", trainable 2);
                          ("backbone.bn1.bias", frozen 3);
                          ("fc.bias", trainable 4)] |}.

Definition looked_up : World :=
  {| fs := fs (world_of []); trace := [EvGet Optimizers "SGD"] |}.

End BuildOptimizerInputs.

(** ** Vocabulary of the further properties *)

Section ReadOnly.

Context `{OS}.

(** The computation leaves the world as it found it, and what it returns
    or raises depends on the file system only. *)
Definition reads_only {A} (c : Py A) : Prop :=
  forall w,
    snd (c w) = w /\
    forall w', fs w' = fs w -> fst (c w') = fst (c w).

End ReadOnly.

Section ManifestVocabulary.

(** The text is ASCII, the range in which [PyStr] follows Python's
    treatment of white space and digits. *)
Fixpoint is_ascii (s : string) : bool :=
  match s with
  | EmptyString => true
  | String c s' => (nat_of_ascii c <? 128)%nat && is_ascii s'
  end.

(** The line of the split file is ASCII text that holds the two fields
    of [row]. *)
Definition manifest_row (line : string) (row : string * string) : Prop :=
  is_ascii line = true /\ PyStr.split_ws line = [row.1; row.2].

(** The flag [_load_samples] looks for: ['1'] for ["train"], ['0'] for
    any other split. *)
Definition split_flag (split : string) : string :=
  if String.eqb split "train" then "1" else "0".

(** The identifiers of the rows that carry the flag. *)
Definition flagged_ids (flag : string) (rows : list (string * string)) : list string :=
  map fst (List.filter (fun row => String.eqb flag row.2) rows).

(** For each row whose identifier is flagged, the image directory
    joined with the row's second field. *)
Definition flag_samples (root flag : string) (rows : list (string * string))
  : list string :=
  map (fun row => op.join root [image_dir; row.2])
      (List.filter (fun row => existsb (String.eqb row.1) (flagged_ids flag rows)) rows).

End ManifestVocabulary.

Module DatasetInputs.

Import Toy.

Definition line (fields : string) : string := fields +:+ PyStr.newline.

Definition data_dir : string := "/data/CUB_200_2011/CUB_200_2011".

(** An unpacked data set with two species and three images. *)
Definition unpacked : World :=
  world_of
    [("/data", Dir); ("/data/CUB_200_2011", Dir); (data_dir, Dir);
     (data_dir +:+ "/images", Dir);
     (data_dir +:+ "/images/001.Black_footed_Albatross", Dir);
     (data_dir +:+ "/images/002.Laysan_Albatross", Dir);
     (data_dir +:+ "/train_test_split.txt", File [line "1 0"; line "2 1"; line "3 1"])].

(** The same split file with an empty line in the middle. *)
Definition gapped : World :=
  world_of
    [(data_dir +:+ "/train_test_split.txt", File [line "1 0"; line ""; line "3 1"])].

(** A stray file next to the species directories. *)
Definition littered : World :=
  world_of
    [(data_dir +:+ "/images", Dir);
     (data_dir +:+ "/images/001.Black_footed_Albatross", Dir);
     (data_dir +:+ "/images/README", File [])].

End DatasetInputs.

Module DatasetEdgeInputs.

Import Toy DatasetInputs.

(** A hidden file next to the species directories. *)
Definition hidden : World :=
  world_of
    [(data_dir +:+ "/images", Dir);
     (data_dir +:+ "/images/001.Black_footed_Albatross", Dir);
     (data_dir +:+ "/images/.DS_Store", File [])].

End DatasetEdgeInputs.

Module BuildOptimizerEdgeInputs.

Import Toy BuildOptimizerInputs.

(** [AdamW] is not registered in [library]. *)
Definition unregistered : optim_cfg := {|
  OPTIM_NAME := "AdamW";
  OPTIM_ARGS := [];
  LR := LR all_rates
|}.

(** A config with a backbone rate and no base rate. *)
Definition no_base : optim_cfg := {|
  OPTIM_NAME := "SGD";
  OPTIM_ARGS := [];
  LR := <["backbone" := 0.01%Q]> ∅
|}.

Definition backbone_only : Module :=
  {| named_parameters := [("backbone.conv1.weight", trainable 1)] |}.

End BuildOptimizerEdgeInputs.

Section BuildModelVocabulary.

Context `{OS}.

(** The entry that [build_model] stores for an item of [CRITERIONS]:
    under the item's name, the criterion made by the constructor
    registered under that name from the item's arguments, with the item's
    weight. *)
Definition criterion_built (R : registries) (item : criterion_cfg)
    (entry : string * criterion_entry) : Prop :=
  entry.1 = name item /\
  cw entry.2 = w item /\
  exists builder,
    criterions R !! name item = Some builder /\
    builder (tltd (args item)) = Returned (fn entry.2).

End BuildModelVocabulary.

Module BuildModelEdgeInputs.

Import Toy BuildModelInputs.

(** [vit] is not a registered backbone. *)
Definition unknown_backbone : model_cfg := {|
  MODEL_NAME := "baseline_resnet50";
  CLASS_NUM := 200;
  BACKBONE := node "vit";
  ENCODER := node "";
  NECKS := node "";
  HEADS := node "classifier_1fc";
  CRITERIONS := []
|}.

(** [classifier_2fc] is not a registered head. *)
Definition unknown_head : model_cfg := {|
  MODEL_NAME := "baseline_resnet50";
  CLASS_NUM := 200;
  BACKBONE := node "resnet50";
  ENCODER := node "global_max_pooling";
  NECKS := node "";
  HEADS := node "classifier_2fc";
  CRITERIONS := [{| name := "cross_entropy_loss"; args := []; w := 1 |}]
|}.

End BuildModelEdgeInputs.

(** ** Proof automation *)

(** Runs the monad's plumbing and the thin wrappers of the outside calls,
    leaving the calls themselves. *)
Ltac run_py :=
  cbv [bind ret raise exit lift emit print logger logger_close os_update os_read
       os_path_exists os_mkdir torch_save_to wget_download_to open_readlines
       os_listdir try_except];
  cbn [fs trace].

(** Closes a goal that equates two final worlds. *)
Ltac same_world := cbn [fs trace]; rewrite <- ?app_assoc; reflexivity.

(** * Properties *)

Section PythonLibraryExamples.

Example split_ws_line : PyStr.split_ws ("12  1" +:+ PyStr.newline) = ["12"; "1"].
Proof. reflexivity. Qed.

Example split_ws_blank : PyStr.split_ws "  " = [].
Proof. reflexivity. Qed.

Example split_on_dot : PyStr.split_on "." "001.Black_footed_Albatross"
                       = ["001"; "Black_footed_Albatross"].
Proof. reflexivity. Qed.

Example split_on_dots : PyStr.split_on "." "a..b" = ["a"; ""; "b"].
Proof. reflexivity. Qed.

Example int_padded : PyStr.int "001" = Some 1.
Proof. reflexivity. Qed.

Example int_forms :
  PyStr.int " -1_0 " = Some (-10) /\ PyStr.int "1__0" = None /\
  PyStr.int "" = None /\ PyStr.int "1_" = None /\ PyStr.int "x1" = None.
Proof. repeat split; reflexivity. Qed.

Example int_rejects_separators :
  PyStr.int (String (ascii_of_nat 28) "1") = None /\
  PyStr.int ("1" +:+ String (ascii_of_nat 31) "") = None /\
  PyStr.int (String (ascii_of_nat 9) "1" +:+ String (ascii_of_nat 12) "") = Some 1 /\
  PyStr.split_ws ("a" +:+ String (ascii_of_nat 28) "b") = ["a"; "b"].
Proof. repeat split; reflexivity. Qed.

Example join_plain : op.join "/data" ["CUB_200_2011"] = "/data/CUB_200_2011".
Proof. reflexivity. Qed.

Example join_trailing : op.join "/data/" ["a/"; "b"] = "/data/a/b".
Proof. reflexivity. Qed.

Example join_absolute : op.join "/data" ["/x"; "y"] = "/x/y".
Proof. reflexivity. Qed.

Example basename_dirname :
  op.basename "/data/CUB_200_2011.tgz" = "CUB_200_2011.tgz" /\
  op.dirname "/data/CUB_200_2011.tgz" = "/data" /\
  op.dirname "/x" = "/" /\ op.dirname "x" = "" /\
  op.dirname "/a//b" = "/a" /\ op.basename "/a/" = "".
Proof. repeat split; reflexivity. Qed.

Example contains_tag :
  PyStr.contains "heads" "model.heads.fc.weight" = true /\
  PyStr.contains "heads" "head.fc.weight" = false /\
  PyStr.endswith ".gz" "CUB_200_2011.tgz" = false /\
  PyStr.endswith ".tgz" "CUB_200_2011.tgz" = true.
Proof. repeat split; reflexivity. Qed.

End PythonLibraryExamples.

(** ** The [Py] monad *)

Section PyLaws.

Context `{OS}.

Lemma bind_returned {A B} (c : Py A) (k : A -> Py B) w a w' :
  c w = (Returned a, w') -> bind c k w = k a w'.
Proof. unfold bind. intros ->. reflexivity. Qed.

Lemma bind_raised {A B} (c : Py A) (k : A -> Py B) w e w' :
  c w = (Raised e, w') -> bind c k w = (Raised e, w').
Proof. unfold bind. intros ->. reflexivity. Qed.

Lemma bind_exited {A B} (c : Py A) (k : A -> Py B) w w' :
  c w = (Exited, w') -> bind c k w = (Exited, w').
Proof. unfold bind. intros ->. reflexivity. Qed.

Lemma bind_ret_l {A B} (a : A) (k : A -> Py B) w : bind (ret a) k w = k a w.
Proof. reflexivity. Qed.

Lemma bind_assoc {A B C} (c : Py A) (k : A -> Py B) (k' : B -> Py C) w :
  bind (bind c k) k' w = bind c (fun a => bind (k a) k') w.
Proof. unfold bind. destruct (c w) as [[a | e |] w']; reflexivity. Qed.

Lemma world_eta (w : World) : {| fs := fs w; trace := trace w |} = w.
Proof. destruct w; reflexivity. Qed.

End PyLaws.

(** ** [save_model] *)

Section SaveModelProps.

Context `{OS}.

(** C9.  With an empty [WEIGHT.NAME], [save_model] returns at once: the
    file system and the trace (log lines included) are what they were;
    no existence test, no directory creation, no write, no log line. *)
Theorem save_model_unnamed_is_identity (cfg : weight_cfg) (model : FGVCSOTA) (w : World) :
  WEIGHT_NAME cfg = "" ->
  save_model cfg model w = (Returned tt, w).
Proof.
  intros Hname. unfold save_model. rewrite Hname. reflexivity.
Qed.

Lemma truthy_nonempty (s : string) : s <> "" -> truthy s = true.
Proof.
  intros Hs. unfold truthy. destruct (String.eqb_spec s ""); [contradiction | reflexivity].
Qed.

(** The directory is missing and [os.mkdir] raises. *)
Lemma save_model_mkdir_fails (cfg : weight_cfg) (model : FGVCSOTA) (w : World) :
  WEIGHT_NAME cfg <> "" ->
  path_exists (fs w) (WEIGHT_SAVE_DIR cfg) = false ->
  mkdir (fs w) (WEIGHT_SAVE_DIR cfg) = None ->
  save_model cfg model w =
    (Exited,
     {| fs := fs w;
        trace := trace w ++ [EvLog ("Cannot create save dir under " +:+ WEIGHT_SAVE_DIR cfg);
                             EvLogClose] |}).
Proof.
  intros Hname Hex Hmk. unfold save_model. rewrite (truthy_nonempty _ Hname).
  unfold bind at 1. unfold os_path_exists at 1. rewrite Hex. cbn [negb].
  unfold bind at 1, try_except, os_mkdir, os_update. rewrite Hmk.
  unfold bind, logger, logger_close, emit, exit. cbn.
  rewrite <- app_assoc. reflexivity.
Qed.

(** The directory is there, or was just made, leaving the file system
    [fs1]: the state is handed to [torch.save]. *)
Lemma save_model_directory_ready (cfg : weight_cfg) (model : FGVCSOTA) (w : World) fs1 :
  WEIGHT_NAME cfg <> "" ->
  (path_exists (fs w) (WEIGHT_SAVE_DIR cfg) = true /\ fs1 = fs w) \/
  (path_exists (fs w) (WEIGHT_SAVE_DIR cfg) = false /\
   mkdir (fs w) (WEIGHT_SAVE_DIR cfg) = Some fs1) ->
  let save_path := op.join (WEIGHT_SAVE_DIR cfg) [WEIGHT_NAME cfg] in
  save_model cfg model w =
    match torch_save fs1 (state_dict model) save_path with
    | Some fs2 =>
        (Returned tt,
         {| fs := fs2; trace := trace w ++ [EvLog ("Saving checkpoint to " +:+ save_path)] |})
    | None => (Raised (OSError save_path), {| fs := fs1; trace := trace w |})
    end.
Proof.
  intros Hname Hdir save_path. unfold save_model. rewrite (truthy_nonempty _ Hname).
  unfold bind at 1. unfold os_path_exists at 1.
  destruct Hdir as [[Hex ->] | [Hex Hmk]]; rewrite Hex; cbn [negb].
  - unfold bind, ret, torch_save_to, os_update, logger, emit. cbn.
    fold save_path. destruct (torch_save _ _ _); cbn; [reflexivity |].
    rewrite world_eta. reflexivity.
  - unfold bind at 1, try_except, os_mkdir, os_update. rewrite Hmk.
    unfold bind, torch_save_to, os_update, logger, emit. cbn.
    fold save_path. destruct (torch_save _ _ _); reflexivity.
Qed.

End SaveModelProps.

Section SaveModelClaims.

Context `{OS}.

(** C6, amended.  With a non-empty [WEIGHT.NAME]: when the save directory
    does not exist and [os.mkdir] raises, the failure is caught, one line
    is logged, the logger is closed and the process exits, the file
    system untouched.  When the directory exists, or is created, the
    model's state goes to [torch.save] under [SAVE_DIR/NAME]; once that
    call returns the save is logged, and if it raises the exception
    reaches the caller with nothing logged. *)
Theorem save_model_named (cfg : weight_cfg) (model : FGVCSOTA) (w : World) :
  WEIGHT_NAME cfg <> "" ->
  let save_dir := WEIGHT_SAVE_DIR cfg in
  let save_path := op.join save_dir [WEIGHT_NAME cfg] in
  (path_exists (fs w) save_dir = false ->
   mkdir (fs w) save_dir = None ->
   save_model cfg model w =
     (Exited,
      {| fs := fs w;
         trace := trace w ++ [EvLog ("Cannot create save dir under " +:+ save_dir);
                              EvLogClose] |})) /\
  (forall fs1,
     (path_exists (fs w) save_dir = true /\ fs1 = fs w) \/
     (path_exists (fs w) save_dir = false /\ mkdir (fs w) save_dir = Some fs1) ->
     save_model cfg model w =
       match torch_save fs1 (state_dict model) save_path with
       | Some fs2 =>
           (Returned tt,
            {| fs := fs2;
               trace := trace w ++ [EvLog ("Saving checkpoint to " +:+ save_path)] |})
       | None => (Raised (OSError save_path), {| fs := fs1; trace := trace w |})
       end).
Proof.
  intros Hname save_dir save_path. split.
  - intros Hex Hmk. apply save_model_mkdir_fails; assumption.
  - intros fs1 Hdir. apply save_model_directory_ready; assumption.
Qed.

End SaveModelClaims.

Module SaveModelExamples.

Import Toy SaveModelInputs.

(** C9 at a concrete input: the directory is missing and is not made. *)
Lemma save_model_unnamed_is_identity_witness :
  WEIGHT_NAME unnamed = "" /\ save_model unnamed model bare = (Returned tt, bare).
Proof.
  split; [reflexivity |].
  apply (save_model_unnamed_is_identity unnamed model bare). reflexivity.
Defined.

(** C6 as stated fails: the directory exists, yet with an empty
    [WEIGHT.NAME] nothing is written and nothing is logged. *)
Lemma save_model_unnamed_skips_write :
  path_exists (fs prepared) (WEIGHT_SAVE_DIR unnamed) = true /\
  save_model unnamed model prepared = (Returned tt, prepared) /\
  trace (snd (save_model unnamed model prepared)) = [] /\
  readlines (fs (snd (save_model unnamed model prepared)))
    (op.join (WEIGHT_SAVE_DIR unnamed) [WEIGHT_NAME unnamed]) = None.
Proof. repeat split; vm_compute; reflexivity. Qed.

(** C6, amended, at concrete inputs: [/runs] is missing, so [/runs/ckpt]
    cannot be made and the process exits; [/ckpt] can be made, and the
    checkpoint lands in it. *)
Lemma save_model_named_witness :
  (fst (save_model nested model bare) = Exited /\
   trace (snd (save_model nested model bare))
     = [EvLog "Cannot create save dir under /runs/ckpt"; EvLogClose] /\
   fs (snd (save_model nested model bare)) = fs bare) /\
  (fst (save_model named model bare) = Returned tt /\
   trace (snd (save_model named model bare))
     = [EvLog "Saving checkpoint to /ckpt/best.pth"] /\
   readlines (fs (snd (save_model named model bare))) "/ckpt/best.pth"
     = Some ["resnet50"]).
Proof.
  split.
  - rewrite (proj1 (save_model_named nested model bare ltac:(discriminate)));
      [repeat split | vm_compute; reflexivity | vm_compute; reflexivity].
  - rewrite (proj2 (save_model_named named model bare ltac:(discriminate))
               (put "/ckpt" Dir (fs bare)));
      [repeat split; vm_compute; reflexivity | right; split; vm_compute; reflexivity].
Defined.

End SaveModelExamples.

(** ** Facts about strings and paths *)

Section StringFacts.

Lemma sapp_cons (x : ascii) (a b : string) : String x a +:+ b = String x (a +:+ b).
Proof. reflexivity. Qed.

Lemma sapp_nil_l (b : string) : "" +:+ b = b.
Proof. reflexivity. Qed.

Lemma sapp_assoc (a b c : string) : (a +:+ b) +:+ c = a +:+ (b +:+ c).
Proof.
  induction a as [| x a IH]; [reflexivity |].
  rewrite !sapp_cons. f_equal. exact IH.
Qed.

Lemma sapp_nil_r (a : string) : a +:+ "" = a.
Proof.
  induction a as [| x a IH]; [reflexivity |].
  rewrite sapp_cons. f_equal. exact IH.
Qed.

Lemma slength_app (a b : string) :
  String.length (a +:+ b) = (String.length a + String.length b)%nat.
Proof.
  induction a as [| x a IH]; [reflexivity |].
  rewrite sapp_cons. simpl. f_equal. exact IH.
Qed.

Lemma endswith_intro (suf q : string) : PyStr.endswith suf (q +:+ suf) = true.
Proof.
  induction q as [| x q IH].
  - rewrite sapp_nil_l. destruct suf; simpl; rewrite ?String.eqb_refl, ?Ascii.eqb_refl; reflexivity.
  - rewrite sapp_cons. simpl. rewrite IH. apply orb_true_r.
Qed.

Lemma endswith_elim (suf s : string) :
  PyStr.endswith suf s = true -> exists q, s = q +:+ suf.
Proof.
  induction s as [| x s IH]; simpl.
  - rewrite orb_false_r. intros Heq%String.eqb_eq. subst. now exists "".
  - intros [Heq%String.eqb_eq | Hrest]%orb_true_iff.
    + subst. now exists "".
    + destruct (IH Hrest) as [q ->]. now exists (String x q).
Qed.

(** A suffix test only looks at the end of the text. *)
Lemma endswith_app_long (suf p t : string) :
  (String.length suf <= String.length t)%nat ->
  PyStr.endswith suf (p +:+ t) = PyStr.endswith suf t.
Proof.
  intros Hlen. induction p as [| x p IH]; [reflexivity |].
  rewrite sapp_cons. simpl. rewrite IH.
  destruct (String.eqb_spec suf (String x (p +:+ t))) as [Heq | _]; [| reflexivity].
  apply (f_equal String.length) in Heq. simpl in Heq. rewrite slength_app in Heq. lia.
Qed.

Lemma rsplit_sep_free (b : string) : sep_free b = true -> op.rsplit_sep b = ("", b).
Proof.
  induction b as [| c b IH]; simpl; [reflexivity |].
  intros [Hc Hb]%andb_true_iff. rewrite (IH Hb).
  apply negb_true_iff in Hc. now rewrite Hc.
Qed.

Lemma rsplit_sep_app (q b : string) :
  sep_free b = true -> op.rsplit_sep (q +:+ "/" +:+ b) = (q +:+ "/", b).
Proof.
  intros Hb. induction q as [| c q IH].
  - rewrite sapp_nil_l. change ("/" +:+ b) with (String "/" b). simpl.
    now rewrite (rsplit_sep_free b Hb).
  - change (String c q +:+ "/" +:+ b) with (String c (q +:+ "/" +:+ b)).
    change (String c q +:+ "/") with (String c (q +:+ "/")).
    simpl. rewrite IH. destruct q; reflexivity.
Qed.

(** Joining a relative component keeps it as the end of the path, after a
    separator unless the path was empty. *)
Lemma join2_relative (path b : string) :
  PyStr.startswith "/" b = false ->
  (path = "" /\ op.join2 path b = b) \/ (exists q, op.join2 path b = q +:+ "/" +:+ b).
Proof.
  intros Hrel. unfold op.join2. rewrite Hrel.
  destruct (String.eqb_spec path "") as [-> | Hne]; simpl orb.
  - now left.
  - right. destruct (PyStr.endswith "/" path) eqn:Hend.
    + destruct (endswith_elim _ _ Hend) as [q ->]. exists q. now rewrite sapp_assoc.
    + now exists path.
Qed.

Lemma basename_join (path b : string) :
  sep_free b = true -> PyStr.startswith "/" b = false ->
  op.basename (op.join path [b]) = b.
Proof.
  intros Hfree Hrel. unfold op.basename, op.join. simpl fold_left.
  destruct (join2_relative path b Hrel) as [[_ ->] | [q ->]].
  - now rewrite rsplit_sep_free.
  - now rewrite rsplit_sep_app.
Qed.

Lemma endswith_join (suf path b : string) :
  PyStr.startswith "/" b = false ->
  (String.length suf <= String.length b)%nat ->
  PyStr.endswith suf (op.join path [b]) = PyStr.endswith suf b.
Proof.
  intros Hrel Hlen. unfold op.join. simpl fold_left.
  destruct (join2_relative path b Hrel) as [[_ ->] | [q ->]]; [reflexivity |].
  rewrite <- sapp_assoc. now apply endswith_app_long.
Qed.

End StringFacts.

(** ** [CUB_200_2011.download] *)

Section DownloadProps.

Context `{OS}.

(** Whatever the root, the archive's path ends in [.tgz], so
    [_extract_file] takes its [_un_tgz] branch. *)
Lemma extract_file_archive (root : string) :
  _extract_file (op.join root ["CUB_200_2011.tgz"])
  = _un_tgz (op.join root ["CUB_200_2011.tgz"]).
Proof.
  unfold _extract_file.
  rewrite !endswith_join by (try reflexivity; simpl; lia).
  reflexivity.
Qed.

Lemma archive_basename (root : string) :
  op.basename (op.join root ["CUB_200_2011.tgz"]) = "CUB_200_2011.tgz".
Proof. apply basename_join; reflexivity. Qed.

(** C8.  [download] with the directory [root/CUB_200_2011] present and no
    overwrite only prints a notice: nothing is fetched, nothing is
    extracted, the file system stays as it is.  Otherwise the archive
    [root/CUB_200_2011.tgz] is fetched exactly when it is absent, and it is
    extracted into the directory, next to the archive, named by the
    archive's base name [CUB_200_2011.tgz] without its extension. *)
Theorem download_fetches_and_extracts (root : string) (overwrite : bool) (w : World) :
  let local_copy := op.join root ["CUB_200_2011"] in
  let archive := op.join root ["CUB_200_2011.tgz"] in
  let dest := op.join (op.dirname archive) ["CUB_200_2011"] in
  let ready := EvPrint "Caltech-UCSD Birds-200-2011 dataset is ready." in
  op.basename archive = "CUB_200_2011" +:+ ".tgz" /\
  (path_exists (fs w) local_copy = true -> overwrite = false ->
   download root overwrite w =
     (Returned tt,
      {| fs := fs w; trace := trace w ++ [EvPrint "The dataset already exist!"] |})) /\
  (path_exists (fs w) local_copy = false \/ overwrite = true ->
   path_exists (fs w) archive = true ->
   download root overwrite w =
     match tar_extractall (fs w) archive dest with
     | Some fs' =>
         (Returned tt,
          {| fs := fs'; trace := trace w ++ [EvExtract archive dest; ready] |})
     | None =>
         (Raised (OSError archive),
          {| fs := fs w; trace := trace w ++ [EvExtract archive dest] |})
     end) /\
  (path_exists (fs w) local_copy = false \/ overwrite = true ->
   path_exists (fs w) archive = false ->
   download root overwrite w =
     match wget_download (fs w) download_link archive with
     | None =>
         (Raised (OSError archive),
          {| fs := fs w; trace := trace w ++ [EvWget download_link archive] |})
     | Some fs1 =>
         match tar_extractall fs1 archive dest with
         | Some fs2 =>
             (Returned tt,
              {| fs := fs2;
                 trace := trace w ++ [EvWget download_link archive;
                                      EvExtract archive dest; ready] |})
         | None =>
             (Raised (OSError archive),
              {| fs := fs1;
                 trace := trace w ++ [EvWget download_link archive;
                                      EvExtract archive dest] |})
         end
     end).
Proof.
  intros local_copy archive dest ready.
  assert (Hgate : forall present,
            path_exists (fs w) local_copy = present ->
            download root overwrite w =
              if (present && negb overwrite)%bool
              then print "The dataset already exist!" w
              else bind (os_path_exists archive)
                     (fun fetched =>
                        (if negb fetched then wget_download_to download_link archive
                         else ret tt) ;;;
                        _un_tgz archive ;;;
                        print (cub_name +:+ " dataset is ready.")) w).
  { intros present Hp. unfold download. unfold bind at 1. unfold os_path_exists at 1.
    fold local_copy. rewrite Hp. fold archive.
    destruct (present && negb overwrite)%bool; [reflexivity |].
    unfold archive. rewrite extract_file_archive. reflexivity. }
  assert (Hdest : _un_tgz archive
                  = (emit (EvExtract archive dest) ;;;
                     os_update (fun fs => tar_extractall fs archive dest) archive)).
  { unfold _un_tgz, dest, archive. rewrite archive_basename. reflexivity. }
  assert (Hother : forall present,
            present = false \/ overwrite = true -> (present && negb overwrite)%bool = false).
  { intros present [-> | ->]; [reflexivity | apply andb_false_r]. }
  split; [apply archive_basename |].
  split; [| split].
  - intros Hp ->. rewrite (Hgate true Hp). reflexivity.
  - intros Hp Ha. rewrite (Hgate _ eq_refl), (Hother _ Hp), Hdest.
    unfold bind at 1. unfold os_path_exists at 1. rewrite Ha. simpl negb.
    run_py. destruct (tar_extractall _ _ _); same_world.
  - intros Hp Ha. rewrite (Hgate _ eq_refl), (Hother _ Hp), Hdest.
    unfold bind at 1. unfold os_path_exists at 1. rewrite Ha. simpl negb.
    run_py. destruct (wget_download _ _ _); [| same_world].
    cbn [fs trace]. destruct (tar_extractall _ _ _); same_world.
Qed.

End DownloadProps.

Module DownloadExamples.

Import Toy DownloadInputs.

(** C8 at concrete inputs, one for each of the three cases. *)
Lemma download_fetches_and_extracts_witness :
  download "/data" false stocked
    = (Returned tt, {| fs := fs stocked; trace := [EvPrint "The dataset already exist!"] |}) /\
  (fst (download "/data" false cached) = Returned tt /\
   trace (snd (download "/data" false cached))
     = [EvExtract "/data/CUB_200_2011.tgz" "/data/CUB_200_2011";
        EvPrint "Caltech-UCSD Birds-200-2011 dataset is ready."]) /\
  (fst (download "/data" false online) = Returned tt /\
   trace (snd (download "/data" false online))
     = [EvWget download_link "/data/CUB_200_2011.tgz";
        EvExtract "/data/CUB_200_2011.tgz" "/data/CUB_200_2011";
        EvPrint "Caltech-UCSD Birds-200-2011 dataset is ready."] /\
   path_exists (fs (snd (download "/data" false online)))
     "/data/CUB_200_2011/CUB_200_2011/images.txt" = true).
Proof.
  split; [| split].
  - destruct (download_fetches_and_extracts "/data" false stocked) as (_ & Hnoop & _ & _).
    apply Hnoop; vm_compute; reflexivity.
  - destruct (download_fetches_and_extracts "/data" false cached) as (_ & _ & Hcached & _).
    rewrite Hcached; [split | left |]; vm_compute; reflexivity.
  - destruct (download_fetches_and_extracts "/data" false online) as (_ & _ & _ & Hfetch).
    rewrite Hfetch; [repeat split | left |]; vm_compute; reflexivity.
Defined.

End DownloadExamples.

(** ** [CUB_200_2011._load_samples] *)

Module LoadSamplesExamples.

Import Toy LoadSamplesInputs.

(** C1 at its own example.  The second pass of [_load_samples] opens
    [split_file] once more, not [images_list_file]: the one sample it
    returns for image 1 is the image directory joined with the flag ["1"],
    not the path the images list gives for image 1. *)
Theorem load_samples_joins_the_flag :
  op.join "/data" [split_file] = split_path /\
  op.join "/data" [images_list_file] = images_path /\
  readlines (fs birds) images_path
    = Some [line "1 001.Black_footed_Albatross/Black_Footed_Albatross_0046_18.jpg";
            line "2 001.Black_footed_Albatross/Black_Footed_Albatross_0009_34.jpg"] /\
  _load_samples "/data" "train" birds
    = (Returned ["/data/CUB_200_2011/CUB_200_2011/images/1"], birds) /\
  _load_samples "/data" "train" birds
    <> (Returned [op.join "/data" [image_dir;
                   "001.Black_footed_Albatross/Black_Footed_Albatross_0046_18.jpg"]],
        birds).
Proof.
  repeat split; try (vm_compute; reflexivity).
  intros Heq. vm_compute in Heq. discriminate Heq.
Qed.

End LoadSamplesExamples.

(** ** Dictionaries filled by a loop *)

Section DictFill.

Context {K V : Type} `{Countable K}.

Lemma fill_cons (kv : K * V) (kvs : list (K * V)) (d : gmap K V) :
  fill (kv :: kvs) d = fill kvs (<[kv.1 := kv.2]> d).
Proof. reflexivity. Qed.

Lemma fill_absent (kvs : list (K * V)) (d : gmap K V) (k : K) :
  k ∉ kvs.*1 -> fill kvs d !! k = d !! k.
Proof.
  revert d. induction kvs as [| [k0 v0] kvs IH]; intros d Hk; [reflexivity |].
  rewrite fill_cons. rewrite fmap_cons in Hk. apply not_elem_of_cons in Hk as [Hne Hk].
  rewrite IH by exact Hk. simpl in *. apply lookup_insert_ne. intros ->. now apply Hne.
Qed.

Lemma fill_present (kvs : list (K * V)) (d : gmap K V) (k : K) (v : V) :
  NoDup kvs.*1 -> (k, v) ∈ kvs -> fill kvs d !! k = Some v.
Proof.
  revert d. induction kvs as [| [k0 v0] kvs IH]; intros d Hnd Hin.
  - apply elem_of_nil in Hin. contradiction.
  - rewrite fmap_cons in Hnd. apply NoDup_cons in Hnd as [Hfresh Hnd].
    rewrite fill_cons. apply elem_of_cons in Hin as [Heq | Hin].
    + injection Heq as -> ->. rewrite fill_absent by exact Hfresh.
      simpl. apply lookup_insert_eq.
    + apply IH; assumption.
Qed.

Lemma fill_origin (kvs : list (K * V)) (d : gmap K V) (k : K) (v : V) :
  fill kvs d !! k = Some v -> (k, v) ∈ kvs \/ d !! k = Some v.
Proof.
  revert d. induction kvs as [| [k0 v0] kvs IH]; intros d Hlook; [now right |].
  rewrite fill_cons in Hlook. destruct (IH _ Hlook) as [Hin | Hd].
  - left. now apply elem_of_cons; right.
  - simpl in Hd. destruct (decide (k0 = k)) as [-> | Hne].
    + rewrite lookup_insert_eq in Hd. injection Hd as ->. left. apply elem_of_cons. now left.
    + rewrite lookup_insert_ne in Hd by exact Hne. now right.
Qed.

End DictFill.

(** ** [CUB_200_2011._load_categories] *)

Section EntryForm.

Lemma split_on_dot_free (b : string) : dot_free b = true -> PyStr.split_on "." b = [b].
Proof.
  induction b as [| c b IH]; simpl; [reflexivity |].
  intros [Hc Hb]%andb_true_iff. apply negb_true_iff in Hc.
  rewrite Hc, (IH Hb). reflexivity.
Qed.

Lemma split_on_form (a b : string) :
  dot_free a = true -> dot_free b = true ->
  PyStr.split_on "." (a +:+ "." +:+ b) = [a; b].
Proof.
  intros Ha Hb. induction a as [| c a IH].
  - rewrite sapp_nil_l. change ("." +:+ b) with (String "." b). simpl.
    now rewrite (split_on_dot_free b Hb).
  - simpl in Ha. apply andb_true_iff in Ha as [Hc Ha]. apply negb_true_iff in Hc.
    change (String c a +:+ "." +:+ b) with (String c (a +:+ "." +:+ b)).
    simpl. rewrite Hc, (IH Ha). reflexivity.
Qed.

End EntryForm.

Section LoadCategoriesProps.

Context `{OS}.

(** The loop of [_load_categories] over well-formed names fills the two
    dictionaries entry by entry. *)
Lemma load_categories_fills (root : string) (w : World)
    (sub_dirs : list string) (entries : list (Z * string)) :
  listdir (fs w) (op.join root [image_dir]) = Some sub_dirs ->
  Forall2 (fun name e => entry_form name e.1 e.2) sub_dirs entries ->
  _load_categories root w =
    (Returned (fill (map (fun e => (e.2, e.1 - 1)) entries) ∅,
               fill (map (fun e => (e.1 - 1, e.2)) entries) ∅), w).
Proof.
  intros Hls Hforms. unfold _load_categories.
  unfold bind at 1. unfold os_listdir, os_read. rewrite Hls. clear Hls.
  generalize (∅ : gmap string Z) (∅ : gmap Z string).
  induction Hforms as [| name [index category] names entries Hform _ IH]; intros c2i i2c.
  - reflexivity.
  - cbn [fst snd] in Hform. destruct Hform as (digits & -> & Hd & Hc & Hint).
    cbn [for_each]. unfold bind at 1. cbv beta iota.
    rewrite (split_on_form digits category Hd Hc), Hint.
    cbn [ret]. rewrite IH. reflexivity.
Qed.

(** C10, amended.  When every entry of the image directory has the form
    [<index>.<name>], no two entries share an index and no two share a
    name, [_load_categories] returns, the object built by [__init__]
    holds what it returned, and on it [encode_category(name) = index - 1]
    and [decode_category(index - 1) = name] for every entry, so
    [decode_category(encode_category(c)) = c] for every category of the
    index. *)
Theorem categories_shifted_bijection (root : string) (w : World)
    (sub_dirs : list string) (entries : list (Z * string)) :
  listdir (fs w) (op.join root [image_dir]) = Some sub_dirs ->
  Forall2 (fun name e => entry_form name e.1 e.2) sub_dirs entries ->
  NoDup entries.*1 -> NoDup entries.*2 ->
  exists c2i i2c,
    _load_categories root w = (Returned (c2i, i2c), w) /\
    (forall mode self w',
       CUB_200_2011_init root mode false w = (Returned self, w') ->
       category2index self = c2i /\ index2category self = i2c) /\
    (forall self,
       category2index self = c2i -> index2category self = i2c ->
       (forall index category,
          (index, category) ∈ entries ->
          encode_category self category = Returned (index - 1) /\
          decode_category self (index - 1) = Returned category) /\
       (forall category index,
          encode_category self category = Returned index ->
          decode_category self index = Returned category)).
Proof.
  intros Hls Hforms Hindices Hnames.
  pose proof (load_categories_fills root w sub_dirs entries Hls Hforms) as Hload.
  eexists _, _. split; [exact Hload |].
  assert (Hkeys1 : NoDup (map (fun e : Z * string => (e.2, e.1 - 1)) entries).*1).
  { rewrite <- list_fmap_compose. exact Hnames. }
  assert (Hkeys2 : NoDup (map (fun e : Z * string => (e.1 - 1, e.2)) entries).*1).
  { rewrite <- list_fmap_compose.
    assert (Hinj : Inj eq eq (fun i : Z => i - 1)) by (intros x y Hxy; lia).
    apply (NoDup_fmap_2 (fun i : Z => i - 1)) in Hindices.
    rewrite <- list_fmap_compose in Hindices. exact Hindices. }
  assert (Hentry : forall index category,
            (index, category) ∈ entries ->
            fill (map (fun e : Z * string => (e.2, e.1 - 1)) entries) ∅ !! category
              = Some (index - 1) /\
            fill (map (fun e : Z * string => (e.1 - 1, e.2)) entries) ∅ !! (index - 1)
              = Some category).
  { intros index category Hin. split.
    - apply fill_present; [exact Hkeys1 |].
      apply (list_elem_of_fmap_2 (fun e : Z * string => (e.2, e.1 - 1))) in Hin. exact Hin.
    - apply fill_present; [exact Hkeys2 |].
      apply (list_elem_of_fmap_2 (fun e : Z * string => (e.1 - 1, e.2))) in Hin. exact Hin. }
  split.
  - intros mode self w' Hinit. unfold CUB_200_2011_init in Hinit.
    destruct (negb _); [discriminate Hinit |].
    unfold bind at 1 in Hinit. cbn [ret] in Hinit.
    unfold bind at 1 in Hinit. rewrite Hload in Hinit.
    unfold bind in Hinit. destruct (_load_samples root mode w) as [[found | e |] w1];
      try discriminate Hinit.
    cbn [ret] in Hinit. injection Hinit as <- _. split; reflexivity.
  - intros self Hc2i Hi2c. unfold encode_category, decode_category.
    rewrite Hc2i, Hi2c. split.
    + intros index category Hin. destruct (Hentry index category Hin) as [-> ->].
      split; reflexivity.
    + intros category index Henc.
      destruct (fill _ ∅ !! category) as [k |] eqn:Hlook; [| discriminate Henc].
      injection Henc as ->.
      apply fill_origin in Hlook as [Hin | Hempty]; [| rewrite lookup_empty in Hempty; discriminate].
      apply list_elem_of_fmap in Hin as ([i c] & Heq & Hin). simpl in Heq.
      injection Heq as -> ->. destruct (Hentry i c Hin) as [_ ->]. reflexivity.
Qed.

End LoadCategoriesProps.

Module LoadCategoriesExamples.

Import Toy LoadCategoriesInputs.

Lemma entry_form_intro (digits category : string) (index : Z) :
  dot_free digits = true -> dot_free category = true ->
  PyStr.int digits = Some index ->
  entry_form (digits +:+ "." +:+ category) index category.
Proof. intros Hd Hc Hi. exists digits. repeat split; assumption. Qed.

(** C10 as stated fails.  In [clash] and in [twice] every entry has the
    form [<index>.<name>]; in [clash] index 0 decodes to Tern although
    [1.Gull] is an entry, so decoding the code of Gull gives Tern; in
    [twice] Gull encodes to 1 although [1.Gull] is an entry. *)
Lemma categories_not_a_bijection :
  (listdir (fs clash) (op.join "/data" [image_dir]) = Some ["1.Gull"; "1.Tern"] /\
   entry_form "1.Gull" 1 "Gull" /\ entry_form "1.Tern" 1 "Tern" /\
   exists self,
     fst (CUB_200_2011_init "/data" "train" false clash) = Returned self /\
     encode_category self "Gull" = Returned 0 /\
     decode_category self (1 - 1) = Returned "Tern") /\
  (listdir (fs twice) (op.join "/data" [image_dir]) = Some ["1.Gull"; "2.Gull"] /\
   entry_form "1.Gull" 1 "Gull" /\ entry_form "2.Gull" 2 "Gull" /\
   exists self,
     fst (CUB_200_2011_init "/data" "train" false twice) = Returned self /\
     encode_category self "Gull" = Returned 1).
Proof.
  split.
  - split; [vm_compute; reflexivity |].
    split; [apply (entry_form_intro "1" "Gull" 1); reflexivity |].
    split; [apply (entry_form_intro "1" "Tern" 1); reflexivity |].
    eexists. split; [vm_compute; reflexivity |].
    split; vm_compute; reflexivity.
  - split; [vm_compute; reflexivity |].
    split; [apply (entry_form_intro "1" "Gull" 1); reflexivity |].
    split; [apply (entry_form_intro "2" "Gull" 2); reflexivity |].
    eexists. split; vm_compute; reflexivity.
Qed.

(** C10, amended, on [aviary]. *)
Lemma categories_shifted_bijection_witness :
  exists c2i i2c,
    _load_categories "/data" aviary = (Returned (c2i, i2c), aviary) /\
    c2i !! "Laysan_Albatross" = Some 1 /\
    i2c !! 1 = Some "Laysan_Albatross".
Proof.
  destruct (categories_shifted_bijection "/data" aviary
              ["003.Sooty_Albatross"; "001.Black_footed_Albatross"; "002.Laysan_Albatross"]
              aviary_entries)
    as (c2i & i2c & Hload & _ & Hmaps).
  - vm_compute. reflexivity.
  - repeat constructor.
    + apply (entry_form_intro "003" "Sooty_Albatross" 3); reflexivity.
    + apply (entry_form_intro "001" "Black_footed_Albatross" 1); reflexivity.
    + apply (entry_form_intro "002" "Laysan_Albatross" 2); reflexivity.
  - apply (bool_decide_unpack _). vm_compute. exact I.
  - apply (bool_decide_unpack _). vm_compute. exact I.
  - exists c2i, i2c. split; [exact Hload |].
    destruct (Hmaps {| root := "/data"; category2index := c2i;
                       index2category := i2c; samples := [] |} eq_refl eq_refl)
      as [Hentries _].
    destruct (Hentries 2 "Laysan_Albatross") as [Henc Hdec].
    + apply (bool_decide_unpack _). vm_compute. exact I.
    + unfold encode_category, decode_category in Henc, Hdec. simpl in Henc, Hdec.
      split.
      * destruct (c2i !! "Laysan_Albatross"); [injection Henc as -> | discriminate Henc].
        reflexivity.
      * change (2 - 1) with 1 in Hdec.
        destruct (i2c !! 1); [injection Hdec as -> | discriminate Hdec]. reflexivity.
Defined.

End LoadCategoriesExamples.

(** ** Registries *)

Section RegistryProps.

Context `{OS} {C : Type}.

Lemma populate_fill (policy : duplicate_policy) (kind : registry_kind)
    (regs : list (string * C)) (reg reg' : gmap string C) :
  populate policy kind regs reg = Returned reg' -> reg' = fill regs reg.
Proof.
  revert reg. induction regs as [| [n c] regs IH]; intros reg Hpop; simpl in Hpop.
  - now injection Hpop as <-.
  - unfold register in Hpop. rewrite fill_cons. simpl.
    destruct policy, (reg !! n); try discriminate Hpop; now apply IH.
Qed.

(** With duplicates rejected, registration at start-up only succeeds if
    every name is new. *)
Lemma populate_reject_fresh (kind : registry_kind)
    (regs : list (string * C)) (reg reg' : gmap string C) :
  populate RejectDuplicate kind regs reg = Returned reg' ->
  NoDup regs.*1 /\ forall n, n ∈ regs.*1 -> reg !! n = None.
Proof.
  revert reg. induction regs as [| [n c] regs IH]; intros reg Hpop; simpl in Hpop.
  - split; [constructor |]. intros n Hn. now apply elem_of_nil in Hn.
  - unfold register in Hpop. destruct (reg !! n) eqn:Hn; [discriminate Hpop |].
    destruct (IH _ Hpop) as [Hnd Hfresh]. rewrite fmap_cons. simpl. split.
    + apply NoDup_cons. split; [| exact Hnd].
      intros Hin. specialize (Hfresh n Hin). now rewrite lookup_insert_eq in Hfresh.
    + intros n' [-> | Hin]%elem_of_cons; [exact Hn |].
      specialize (Hfresh n' Hin). destruct (decide (n = n')) as [-> | Hne].
      * now rewrite lookup_insert_eq in Hfresh.
      * now rewrite lookup_insert_ne in Hfresh.
Qed.

Lemma fill_app {K V : Type} `{Countable K} (a b : list (K * V)) (d : gmap K V) :
  fill (a ++ b) d = fill b (fill a d).
Proof. unfold fill. apply fold_left_app. Qed.

Lemma get_registered (kind : registry_kind) (reg : gmap string C) (N : string)
    (c : C) (w : World) :
  reg !! N = Some c ->
  get kind reg N w = (Returned c, {| fs := fs w; trace := trace w ++ [EvGet kind N] |}).
Proof. intros Hc. unfold get. run_py. rewrite Hc. reflexivity. Qed.

Lemma get_unregistered (kind : registry_kind) (reg : gmap string C) (N : string)
    (w : World) :
  reg !! N = None ->
  get kind reg N w
  = (Raised (NotFound kind N), {| fs := fs w; trace := trace w ++ [EvGet kind N] |}).
Proof. intros Hc. unfold get. run_py. rewrite Hc. reflexivity. Qed.

(** C7.  Let [reg] be a registry filled at start-up by the registrations
    [regs], under either reading of [register].  For every name [N]:
    [get(N)] returns the constructor most recently registered under [N];
    when duplicates are rejected that is the one constructor registered
    under [N]; and when nothing was registered under [N], [get(N)] raises
    the NotFound error and returns nothing. *)
Theorem registry_get_spec (policy : duplicate_policy) (kind : registry_kind)
    (regs : list (string * C)) (reg : gmap string C) (N : string) (w : World) :
  populate policy kind regs ∅ = Returned reg ->
  let looked_up := {| fs := fs w; trace := trace w ++ [EvGet kind N] |} in
  (forall c earlier later,
     regs = earlier ++ (N, c) :: later -> N ∉ later.*1 ->
     get kind reg N w = (Returned c, looked_up)) /\
  (policy = RejectDuplicate ->
   forall c, (N, c) ∈ regs -> get kind reg N w = (Returned c, looked_up)) /\
  (N ∉ regs.*1 -> get kind reg N w = (Raised (NotFound kind N), looked_up)).
Proof.
  intros Hpop looked_up. pose proof (populate_fill _ _ _ _ _ Hpop) as ->.
  split; [| split].
  - intros c earlier later -> Hlast. apply get_registered.
    rewrite fill_app, fill_cons, fill_absent by exact Hlast. apply lookup_insert_eq.
  - intros -> c Hin. apply get_registered.
    apply fill_present; [| exact Hin]. apply (populate_reject_fresh _ _ _ _ Hpop).
  - intros Hnew. apply get_unregistered. rewrite fill_absent by exact Hnew.
    apply lookup_empty.
Qed.

End RegistryProps.

Module RegistryExamples.

Import Toy RegistryInputs.

(** C7 on a registry of two backbones. *)
Lemma registry_get_spec_witness :
  populate RejectDuplicate Backbones start_up ∅ = Returned registered /\
  fst (get Backbones registered "resnet50" (world_of [])) = Returned resnet50 /\
  fst (get Backbones registered "vgg16" (world_of [])) = Returned vgg16 /\
  get Backbones registered "alexnet" (world_of [])
    = (Raised (NotFound Backbones "alexnet"),
       {| fs := fs (world_of []); trace := [EvGet Backbones "alexnet"] |}).
Proof.
  assert (Hpop : populate RejectDuplicate Backbones start_up ∅ = Returned registered)
    by reflexivity.
  split; [exact Hpop |].
  split; [| split].
  - rewrite (proj1 (registry_get_spec RejectDuplicate Backbones start_up registered
                      "resnet50" (world_of []) Hpop)
               resnet50 [] [("vgg16", vgg16)] eq_refl); [reflexivity |].
    apply (bool_decide_unpack _). vm_compute. exact I.
  - rewrite (proj1 (proj2 (registry_get_spec RejectDuplicate Backbones start_up registered
                             "vgg16" (world_of []) Hpop))
               eq_refl vgg16); [reflexivity |].
    apply list_elem_of_In. simpl. tauto.
  - apply (proj2 (proj2 (registry_get_spec RejectDuplicate Backbones start_up registered
                           "alexnet" (world_of []) Hpop))).
    apply (bool_decide_unpack _). vm_compute. exact I.
Defined.

End RegistryExamples.

(** ** What a builder does: its events and its result *)

Section Builds.

Context `{OS}.

Lemma builds_ret {A} (a : A) (P : event -> Prop) (Q : A -> Prop) :
  Q a -> builds (ret a) P Q.
Proof.
  intros HQ w. exists []. simpl. rewrite app_nil_r, world_eta.
  repeat split; [constructor |]. now intros a' [= <-].
Qed.

Lemma builds_raise {A} (e : exn) (P : event -> Prop) (Q : A -> Prop) :
  builds (raise e) P Q.
Proof.
  intros w. exists []. simpl. rewrite app_nil_r, world_eta.
  repeat split; [constructor | discriminate].
Qed.

Lemma builds_lift {A} (o : outcome A) (P : event -> Prop) (Q : A -> Prop) :
  (forall a, o = Returned a -> Q a) -> builds (lift o) P Q.
Proof.
  intros HQ w. exists []. simpl. rewrite app_nil_r, world_eta.
  repeat split; [constructor | exact HQ].
Qed.

Lemma builds_bind {A B} (c : Py A) (k : A -> Py B) (P : event -> Prop)
    (Q1 : A -> Prop) (Q : B -> Prop) :
  builds c P Q1 -> (forall a, Q1 a -> builds (k a) P Q) -> builds (bind c k) P Q.
Proof.
  intros Hc Hk w. destruct (Hc w) as (evs1 & Hw1 & HP1 & HQ1).
  unfold bind. destruct (c w) as [[a | e |] w1] eqn:Hrun; simpl in Hw1, HQ1.
  - destruct (Hk a (HQ1 a eq_refl) w1) as (evs2 & Hw2 & HP2 & HQ2).
    exists (evs1 ++ evs2). rewrite Hw2. rewrite Hw1 at 1 2. simpl. rewrite app_assoc.
    repeat split; [apply Forall_app; now split | exact HQ2].
  - exists evs1. simpl. repeat split; [exact Hw1 | exact HP1 | discriminate].
  - exists evs1. simpl. repeat split; [exact Hw1 | exact HP1 | discriminate].
Qed.

Lemma builds_get {C} (kind : registry_kind) (reg : gmap string C) (name : string)
    (P : event -> Prop) (Q : C -> Prop) :
  P (EvGet kind name) ->
  (forall c, reg !! name = Some c -> Q c) ->
  builds (get kind reg name) P Q.
Proof.
  intros HP HQ w. exists [EvGet kind name]. unfold get. run_py.
  destruct (reg !! name) as [c |] eqn:Hc; simpl.
  - repeat split; [now constructor |]. intros c' [= <-]. now apply HQ.
  - repeat split; [now constructor | discriminate].
Qed.

Lemma builds_for_each {A S} (xs : list A) (body : A -> S -> Py S)
    (P : event -> Prop) (Inv : S -> Prop) (acc : S) :
  Inv acc ->
  (forall x acc, x ∈ xs -> Inv acc -> builds (body x acc) P Inv) ->
  builds (for_each xs body acc) P Inv.
Proof.
  revert acc. induction xs as [| x xs IH]; intros acc Hacc Hbody; simpl.
  - now apply builds_ret.
  - apply builds_bind with (Q1 := Inv).
    + apply Hbody; [apply elem_of_cons; now left | exact Hacc].
    + intros acc' Hacc'. apply IH; [exact Hacc' |].
      intros x' acc'' Hin. apply Hbody. apply elem_of_cons. now right.
Qed.

Lemma builds_weaken {A} (c : Py A) (P P' : event -> Prop) (Q Q' : A -> Prop) :
  builds c P Q -> (forall ev, P ev -> P' ev) -> (forall a, Q a -> Q' a) ->
  builds c P' Q'.
Proof.
  intros Hc HP HQ w. destruct (Hc w) as (evs & Hw & Hevs & Hres).
  exists evs. repeat split; [exact Hw | | now intros a Ha; apply HQ, Hres].
  eapply Forall_impl; [exact Hevs | exact HP].
Qed.

End Builds.

(** ** [build_model] *)

Section BuildModelProps.

Context `{OS}.

Variable R : registries.

Lemma truthy_empty (s : string) : s = "" -> truthy s = false.
Proof. now intros ->. Qed.

Lemma builds_optional_part {X} (kind : registry_kind)
    (reg : gmap string (ArgsDict -> outcome X)) (node : CfgNode) (P : event -> Prop) :
  (NAME node <> "" -> P (EvGet kind (NAME node))) ->
  builds
    (if truthy (NAME node) then
       builder <- get kind reg (NAME node) ;;
       part <- lift (builder (tltd (ARGS node))) ;;
       ret (Some part)
     else ret None)
    P (optional_part reg node).
Proof.
  intros HP. unfold optional_part. destruct (truthy (NAME node)) eqn:Hname.
  - apply builds_bind with (Q1 := fun builder => reg !! NAME node = Some builder).
    + apply builds_get; [| tauto]. apply HP. intros Hempty.
      rewrite (truthy_empty _ Hempty) in Hname. discriminate Hname.
    + intros builder Hbuilder.
      apply builds_bind with (Q1 := fun x => builder (tltd (ARGS node)) = Returned x).
      * apply builds_lift. tauto.
      * intros x Hx. apply builds_ret. now exists builder, x.
  - now apply builds_ret.
Qed.

(** Every run of [build_model]: which registries it consults, and how a
    model it returns was put together. *)
Lemma build_model_parts (cfg : model_cfg) :
  builds (build_model R cfg) (skips_unnamed cfg)
    (fun model =>
       exists model_builder backbone encoder neck head losses,
         models R !! MODEL_NAME cfg = Some model_builder /\
         model_builder cfg backbone encoder neck head losses = Returned model /\
         optional_part (encoders R) (ENCODER cfg) encoder /\
         optional_part (necks R) (NECKS cfg) neck).
Proof.
  assert (Hother : forall kind name,
            kind <> Encoders -> kind <> Necks -> skips_unnamed cfg (EvGet kind name)).
  { intros kind name He Hn. split; intros _ name' [= -> _]; contradiction. }
  unfold build_model.
  apply builds_bind with (Q1 := fun _ => True);
    [apply builds_get; [now apply Hother | tauto] |]. intros backbone_builder _.
  apply builds_bind with (Q1 := fun _ => True); [now apply builds_lift |].
  intros backbone _.
  apply builds_bind with (Q1 := optional_part (encoders R) (ENCODER cfg)).
  { apply (builds_optional_part Encoders). intros Hname.
    split; [contradiction | intros _ name [=]]. }
  intros encoder Hencoder.
  apply builds_bind with (Q1 := optional_part (necks R) (NECKS cfg)).
  { apply (builds_optional_part Necks). intros Hname.
    split; [intros _ name [=] | contradiction]. }
  intros neck Hneck.
  apply builds_bind with (Q1 := fun _ => True);
    [apply builds_get; [now apply Hother | tauto] |]. intros head_builder _.
  apply builds_bind with (Q1 := fun _ => True); [now apply builds_lift |].
  intros head _.
  apply builds_bind with (Q1 := fun _ => True).
  { apply builds_for_each; [exact I |]. intros item losses _ _.
    apply builds_bind with (Q1 := fun _ => True); [| intros; now apply builds_ret].
    unfold build_criterion.
    apply builds_bind with (Q1 := fun _ => True);
      [apply builds_get; [now apply Hother | tauto] | intros; now apply builds_lift]. }
  intros losses _.
  apply builds_bind with (Q1 := fun b => models R !! MODEL_NAME cfg = Some b);
    [apply builds_get; [now apply Hother | tauto] |]. intros model_builder Hmodel.
  apply builds_lift. intros model Hbuilt.
  now exists model_builder, backbone, encoder, neck, head, losses.
Qed.

(** C5.  In every run of [build_model]: with [ENCODER.NAME] empty no
    lookup is made in the encoder registry, and a model that is returned
    was built by the registered model constructor with [encoder=None];
    with [ENCODER.NAME] non-empty, a model that is returned was built with
    the encoder that the constructor registered under that name made from
    [ENCODER.ARGS].  The same holds for [NECKS.NAME], the neck registry
    and the [necks] argument. *)
Theorem build_model_optional_parts (cfg : model_cfg) :
  (NAME (ENCODER cfg) = "" ->
   builds (build_model R cfg) (not_get Encoders)
     (fun model =>
        exists model_builder backbone neck head losses,
          models R !! MODEL_NAME cfg = Some model_builder /\
          model_builder cfg backbone None neck head losses = Returned model)) /\
  (NAME (ENCODER cfg) <> "" ->
   builds (build_model R cfg) (fun _ => True)
     (fun model =>
        exists model_builder backbone encoder_builder encoder neck head losses,
          models R !! MODEL_NAME cfg = Some model_builder /\
          encoders R !! NAME (ENCODER cfg) = Some encoder_builder /\
          encoder_builder (tltd (ARGS (ENCODER cfg))) = Returned encoder /\
          model_builder cfg backbone (Some encoder) neck head losses
            = Returned model)) /\
  (NAME (NECKS cfg) = "" ->
   builds (build_model R cfg) (not_get Necks)
     (fun model =>
        exists model_builder backbone encoder head losses,
          models R !! MODEL_NAME cfg = Some model_builder /\
          model_builder cfg backbone encoder None head losses = Returned model)) /\
  (NAME (NECKS cfg) <> "" ->
   builds (build_model R cfg) (fun _ => True)
     (fun model =>
        exists model_builder backbone encoder neck_builder neck head losses,
          models R !! MODEL_NAME cfg = Some model_builder /\
          necks R !! NAME (NECKS cfg) = Some neck_builder /\
          neck_builder (tltd (ARGS (NECKS cfg))) = Returned neck /\
          model_builder cfg backbone encoder (Some neck) head losses
            = Returned model)).
Proof.
  pose proof (build_model_parts cfg) as Hparts. unfold optional_part in Hparts.
  repeat split; intros Hname.
  - eapply builds_weaken; [exact Hparts | intros ev [He _]; now apply He |].
    intros model (mb & bb & enc & nk & hd & cr & Hmb & Hmodel & Henc & _).
    rewrite (truthy_empty _ Hname) in Henc. subst enc. now exists mb, bb, nk, hd, cr.
  - eapply builds_weaken; [exact Hparts | tauto |].
    intros model (mb & bb & enc & nk & hd & cr & Hmb & Hmodel & Henc & _).
    rewrite (truthy_nonempty _ Hname) in Henc. destruct Henc as (eb & e & Heb & He & ->).
    now exists mb, bb, eb, e, nk, hd, cr.
  - eapply builds_weaken; [exact Hparts | intros ev [_ Hn]; now apply Hn |].
    intros model (mb & bb & enc & nk & hd & cr & Hmb & Hmodel & _ & Hnk).
    rewrite (truthy_empty _ Hname) in Hnk. subst nk. now exists mb, bb, enc, hd, cr.
  - eapply builds_weaken; [exact Hparts | tauto |].
    intros model (mb & bb & enc & nk & hd & cr & Hmb & Hmodel & _ & Hnk).
    rewrite (truthy_nonempty _ Hname) in Hnk. destruct Hnk as (nb & n & Hnb & Hn & ->).
    now exists mb, bb, enc, nb, n, hd, cr.
Qed.

End BuildModelProps.

Module BuildModelExamples.

Import Toy BuildModelInputs.

(** C5 on [baseline] and on [full]: both models are built, the first
    without consulting the encoder and neck registries. *)
Lemma build_model_optional_parts_witness :
  (build_model library baseline (world_of [])
   = (Returned ("resnet50", None, None, "classifier_1fc"),
      {| fs := fs (world_of []);
         trace := [EvGet Backbones "resnet50"; EvGet Heads "classifier_1fc";
                   EvGet Criterions "cross_entropy_loss";
                   EvGet Models "baseline_resnet50"] |}) /\
   builds (build_model library baseline) (not_get Encoders)
     (fun model =>
        exists model_builder backbone neck head losses,
          models library !! MODEL_NAME baseline = Some model_builder /\
          model_builder baseline backbone None neck head losses = Returned model) /\
   builds (build_model library baseline) (not_get Necks)
     (fun model =>
        exists model_builder backbone encoder head losses,
          models library !! MODEL_NAME baseline = Some model_builder /\
          model_builder baseline backbone encoder None head losses = Returned model)) /\
  (fst (build_model library full (world_of []))
   = Returned ("resnet50", Some "global_max_pooling", Some "multi_scale_conv",
               "classifier_1fc") /\
   builds (build_model library full) (fun _ => True)
     (fun model =>
        exists model_builder backbone encoder_builder encoder neck head losses,
          models library !! MODEL_NAME full = Some model_builder /\
          encoders library !! NAME (ENCODER full) = Some encoder_builder /\
          encoder_builder (tltd (ARGS (ENCODER full))) = Returned encoder /\
          model_builder full backbone (Some encoder) neck head losses = Returned model) /\
   builds (build_model library full) (fun _ => True)
     (fun model =>
        exists model_builder backbone encoder neck_builder neck head losses,
          models library !! MODEL_NAME full = Some model_builder /\
          necks library !! NAME (NECKS full) = Some neck_builder /\
          neck_builder (tltd (ARGS (NECKS full))) = Returned neck /\
          model_builder full backbone encoder (Some neck) head losses = Returned model)).
Proof.
  destruct (build_model_optional_parts library baseline) as (Henc & _ & Hneck & _).
  destruct (build_model_optional_parts library full) as (_ & Henc' & _ & Hneck').
  split; (split; [vm_compute; reflexivity |]); split.
  - apply Henc. reflexivity.
  - apply Hneck. reflexivity.
  - apply Henc'. discriminate.
  - apply Hneck'. discriminate.
Defined.

End BuildModelExamples.

(** ** [build_optimizer] *)

Section BuildOptimizerProps.

Context `{OS}.

Variable R : registries.

Lemma mapM_cons_Some {A B} (f : A -> option B) (x : A) (xs : list A) (ys : list B) :
  mapM f (x :: xs) = Some ys ->
  exists y ys', f x = Some y /\ mapM f xs = Some ys' /\ ys = y :: ys'.
Proof.
  simpl. destruct (f x) as [y |]; simpl; [| discriminate].
  destruct (mapM f xs) as [ys' |]; simpl; [| discriminate].
  intros [= <-]. now exists y, ys'.
Qed.

Lemma mapM_app_Some {A B} (f : A -> option B) (xs xs' : list A) (ys : list B) :
  mapM f (xs ++ xs') = Some ys ->
  exists zs zs', mapM f xs = Some zs /\ mapM f xs' = Some zs' /\ ys = zs ++ zs'.
Proof.
  revert ys. induction xs as [| x xs IH]; intros ys Hys.
  - exists [], ys. now repeat split.
  - rewrite <- app_comm_cons in Hys.
    apply mapM_cons_Some in Hys as (y & ys' & Hy & Hrest & ->).
    destruct (IH _ Hrest) as (zs & zs' & Hzs & Hzs' & ->).
    exists (y :: zs), zs'. simpl. rewrite Hy, Hzs. now repeat split.
Qed.

(** The loop over [model_attrs] for one trainable parameter: one group is
    appended for each tag that occurs in the name, and [is_other] stays
    set only if there was none. *)
Lemma tag_loop_appends (rates : gmap string Rate) (n : string) (p : param)
    (tags : list string) (is_other : bool) (acc gs : list param_group) (w : World) :
  mapM (rate_group rates p) (List.filter (fun attr => PyStr.contains attr n) tags) = Some gs ->
  for_each tags
    (fun attr '((is_other, params) : bool * list param_group) =>
       if PyStr.contains attr n then
         let is_other := false in
         rate <- getitem rates attr ;;
         ret (is_other, params ++ [{| params := p; lr := rate |}])
       else ret (is_other, params))
    (is_other, acc) w
  = (Returned (match List.filter (fun attr => PyStr.contains attr n) tags with
               | [] => is_other
               | _ => false
               end, acc ++ gs), w).
Proof.
  revert is_other acc gs. induction tags as [| tag tags IH]; intros is_other acc gs Hgs.
  - injection Hgs as <-. simpl. now rewrite app_nil_r.
  - cbn [for_each List.filter] in *. unfold bind at 1.
    destruct (PyStr.contains tag n).
    + apply mapM_cons_Some in Hgs as (g & gs' & Hg & Hgs' & ->).
      unfold rate_group in Hg. unfold getitem.
      destruct (rates !! tag) as [rate |]; [injection Hg as <- | discriminate Hg].
      run_py. rewrite (IH false _ gs' Hgs'). rewrite <- app_assoc.
      destruct (List.filter _ tags); reflexivity.
    + run_py. apply IH. exact Hgs.
Qed.

(** The body of the outer loop, for one named parameter. *)
Lemma parameter_appends (cfg : optim_cfg) (np : string * param)
    (acc seg : list param_group) (w : World) :
  groups_for (LR cfg) np = Some seg ->
  (let '(n, p) := np in
   fun params : list param_group =>
     let is_other := true in
     if requires_grad p then
       bind
         (for_each model_attrs
            (fun attr '((is_other, params) : bool * list param_group) =>
               if PyStr.contains attr n then
                 let is_other := false in
                 rate <- getitem (LR cfg) attr ;;
                 ret (is_other, params ++ [{| params := p; lr := rate |}])
               else ret (is_other, params))
            (is_other, params))
         (fun '(is_other, params) =>
            if (is_other : bool) then
              rate <- getitem (LR cfg) "base" ;;
              ret (params ++ [{| params := p; lr := rate |}])
            else ret params)
     else ret params) acc w
  = (Returned (acc ++ seg), w).
Proof.
  destruct np as [n p]. unfold groups_for, group_keys, matching_tags. simpl fst. simpl snd.
  cbv zeta. destruct (requires_grad p).
  - destruct (List.filter (fun attr => PyStr.contains attr n) model_attrs)
      as [| tag tags] eqn:Htags; intros Hseg.
    + unfold bind at 1.
      rewrite (tag_loop_appends (LR cfg) n p model_attrs true acc []) by now rewrite Htags.
      rewrite Htags, app_nil_r.
      apply mapM_cons_Some in Hseg as (g & gs & Hg & Hgs & ->). injection Hgs as <-.
      unfold rate_group in Hg. unfold getitem.
      destruct (LR cfg !! "base") as [rate |]; [injection Hg as <- | discriminate Hg].
      reflexivity.
    + unfold bind at 1.
      rewrite (tag_loop_appends (LR cfg) n p model_attrs true acc seg) by now rewrite Htags.
      rewrite Htags. reflexivity.
  - intros [= <-]. now rewrite app_nil_r.
Qed.

(** The group list handed to the optimizer constructor, when the config
    has a rate under every key that is used. *)
Lemma build_optimizer_groups (cfg : optim_cfg) (model : Model) (w : World)
    (optimizer_builder : list param_group -> Rate -> ArgsDict -> outcome Optimizer)
    (base : Rate) (segs : list (list param_group)) :
  optimizers R !! OPTIM_NAME cfg = Some optimizer_builder ->
  LR cfg !! "base" = Some base ->
  mapM (groups_for (LR cfg)) (named_parameters (unwrap model)) = Some segs ->
  build_optimizer R cfg model w
  = (optimizer_builder (concat segs) base (tltd (OPTIM_ARGS cfg)),
     {| fs := fs w; trace := trace w ++ [EvGet Optimizers (OPTIM_NAME cfg)] |}).
Proof.
  intros Hbuilder Hbase Hsegs. unfold build_optimizer. fold (unwrap model).
  cbv zeta. unfold bind at 1.
  match goal with
  | |- context [for_each _ ?body []] =>
      assert (Hloop : forall nps acc segs,
                mapM (groups_for (LR cfg)) nps = Some segs ->
                for_each nps body acc w = (Returned (acc ++ concat segs), w))
  end.
  { induction nps as [| np nps IH]; intros acc segs' Hsegs'.
    - injection Hsegs' as <-. simpl. now rewrite app_nil_r.
    - apply mapM_cons_Some in Hsegs' as (seg & rest & Hseg & Hrest & ->).
      cbn [for_each]. unfold bind at 1.
      pose proof (parameter_appends cfg np acc seg w Hseg) as Hbody.
      match goal with
      | |- (let (_, _) := ?run in _) = _ =>
          replace run with (Returned (acc ++ seg), w) by (symmetry; exact Hbody)
      end.
      rewrite (IH _ _ Hrest). simpl. now rewrite app_assoc. }
  rewrite (Hloop _ [] segs Hsegs). simpl app.
  unfold get_optimizer, get, getattr. rewrite Hbuilder, Hbase. run_py. reflexivity.
Qed.

End BuildOptimizerProps.

Section BuildOptimizerClaims.

Context `{OS}.

Variable R : registries.

Lemma find_head_filter {A} (f : A -> bool) (l : list A) :
  List.find f l = head (List.filter f l).
Proof.
  induction l as [| x l IH]; simpl; [reflexivity |]. now destruct (f x).
Qed.

Lemma rate_groups_by_key (rates : gmap string Rate) (p : param)
    (keys : list string) (gs : list param_group) :
  mapM (rate_group rates p) keys = Some gs ->
  Forall2 (fun key g => params g = p /\ rates !! key = Some (lr g)) keys gs.
Proof.
  revert gs. induction keys as [| key keys IH]; intros gs Hgs.
  - injection Hgs as <-. constructor.
  - apply mapM_cons_Some in Hgs as (g & gs' & Hg & Hgs' & ->).
    constructor; [| now apply IH]. unfold rate_group in Hg.
    destruct (rates !! key); [injection Hg as <- | discriminate Hg]. now split.
Qed.

(** The call made by [build_optimizer], seen from one trainable
    parameter: its groups stand between those of the parameters before
    it and those of the parameters after it. *)
Lemma build_optimizer_at_parameter (cfg : optim_cfg) (model : Model) (w : World)
    (optimizer_builder : list param_group -> Rate -> ArgsDict -> outcome Optimizer)
    (base : Rate) (before after : list (string * param)) (n : string) (p : param) :
  optimizers R !! OPTIM_NAME cfg = Some optimizer_builder ->
  LR cfg !! "base" = Some base ->
  named_parameters (unwrap model) = before ++ (n, p) :: after ->
  requires_grad p = true ->
  is_Some (groups_of (LR cfg) (named_parameters (unwrap model))) ->
  exists groups_before groups groups_after,
    groups_of (LR cfg) before = Some groups_before /\
    groups_of (LR cfg) after = Some groups_after /\
    mapM (rate_group (LR cfg) p) (group_keys n) = Some groups /\
    build_optimizer R cfg model w
    = (optimizer_builder (groups_before ++ groups ++ groups_after) base
         (tltd (OPTIM_ARGS cfg)),
       {| fs := fs w; trace := trace w ++ [EvGet Optimizers (OPTIM_NAME cfg)] |}).
Proof.
  intros Hbuilder Hbase Hsplit Htrain [all_groups Hall]. unfold groups_of in *.
  destruct (mapM _ (named_parameters _)) as [segs |] eqn:Hsegs; [| discriminate Hall].
  rewrite (build_optimizer_groups R cfg model w _ base segs Hbuilder Hbase Hsegs).
  rewrite Hsplit in Hsegs.
  apply mapM_app_Some in Hsegs as (sb & rest & Hsb & Hrest & ->).
  apply mapM_cons_Some in Hrest as (seg & sa & Hseg & Hsa & ->).
  unfold groups_for in Hseg. simpl in Hseg. rewrite Htrain in Hseg.
  exists (concat sb), seg, (concat sa). rewrite Hsb, Hsa.
  repeat split; [exact Hseg |]. now rewrite concat_app, concat_cons.
Qed.

(** C3.  A trainable parameter whose name contains more than one tag is
    appended once for each matching tag, in tag order, each time at that
    tag's rate; these are all its entries, so none of them is a ["base"]
    entry.  (The groups of all parameters exist when the config has a
    rate under every key that is used.) *)
Theorem multi_tag_parameter_repeated (cfg : optim_cfg) (model : Model) (w : World)
    (optimizer_builder : list param_group -> Rate -> ArgsDict -> outcome Optimizer)
    (base : Rate) (before after : list (string * param)) (n : string) (p : param) :
  optimizers R !! OPTIM_NAME cfg = Some optimizer_builder ->
  LR cfg !! "base" = Some base ->
  named_parameters (unwrap model) = before ++ (n, p) :: after ->
  requires_grad p = true ->
  (1 < length (matching_tags n))%nat ->
  is_Some (groups_of (LR cfg) (named_parameters (unwrap model))) ->
  exists groups_before groups groups_after,
    groups_of (LR cfg) before = Some groups_before /\
    groups_of (LR cfg) after = Some groups_after /\
    Forall2 (fun tag g => params g = p /\ LR cfg !! tag = Some (lr g))
      (matching_tags n) groups /\
    length groups = length (matching_tags n) /\
    build_optimizer R cfg model w
    = (optimizer_builder (groups_before ++ groups ++ groups_after) base
         (tltd (OPTIM_ARGS cfg)),
       {| fs := fs w; trace := trace w ++ [EvGet Optimizers (OPTIM_NAME cfg)] |}).
Proof.
  intros Hbuilder Hbase Hsplit Htrain Hmany Hall.
  destruct (build_optimizer_at_parameter cfg model w _ base before after n p
              Hbuilder Hbase Hsplit Htrain Hall)
    as (gb & groups & ga & Hgb & Hga & Hgroups & Hrun).
  exists gb, groups, ga. repeat split; try assumption.
  - apply rate_groups_by_key. unfold group_keys in Hgroups.
    destruct (matching_tags n); [simpl in Hmany; lia | exact Hgroups].
  - apply rate_groups_by_key, Forall2_length in Hgroups. unfold group_keys in Hgroups.
    destruct (matching_tags n); [simpl in Hmany; lia | now symmetry].
Qed.

(** C2, amended.  A trainable parameter whose name contains at most one
    tag is assigned to exactly one group: that of the first tag of
    [model_attrs] that is a substring of its name, or the ["base"] group
    if no tag matches. *)
Theorem single_tag_parameter_one_group (cfg : optim_cfg) (model : Model) (w : World)
    (optimizer_builder : list param_group -> Rate -> ArgsDict -> outcome Optimizer)
    (base : Rate) (before after : list (string * param)) (n : string) (p : param) :
  optimizers R !! OPTIM_NAME cfg = Some optimizer_builder ->
  LR cfg !! "base" = Some base ->
  named_parameters (unwrap model) = before ++ (n, p) :: after ->
  requires_grad p = true ->
  (length (matching_tags n) <= 1)%nat ->
  is_Some (groups_of (LR cfg) (named_parameters (unwrap model))) ->
  exists groups_before rate groups_after,
    groups_of (LR cfg) before = Some groups_before /\
    groups_of (LR cfg) after = Some groups_after /\
    LR cfg !! first_key n = Some rate /\
    build_optimizer R cfg model w
    = (optimizer_builder
         (groups_before ++ [{| params := p; lr := rate |}] ++ groups_after) base
         (tltd (OPTIM_ARGS cfg)),
       {| fs := fs w; trace := trace w ++ [EvGet Optimizers (OPTIM_NAME cfg)] |}).
Proof.
  intros Hbuilder Hbase Hsplit Htrain Hfew Hall.
  destruct (build_optimizer_at_parameter cfg model w _ base before after n p
              Hbuilder Hbase Hsplit Htrain Hall)
    as (gb & groups & ga & Hgb & Hga & Hgroups & Hrun).
  assert (Hkeys : group_keys n = [first_key n]).
  { unfold group_keys, first_key. rewrite find_head_filter. fold (matching_tags n).
    destruct (matching_tags n) as [| tag [| tag' tags]]; simpl in *; [reflexivity .. | lia]. }
  rewrite Hkeys in Hgroups.
  apply mapM_cons_Some in Hgroups as (g & gs & Hg & Hgs & ->). injection Hgs as <-.
  unfold rate_group in Hg.
  destruct (LR cfg !! first_key n) as [rate |] eqn:Hrate; [injection Hg as <- | discriminate Hg].
  now exists gb, rate, ga.
Qed.

(** C4.  With rates [{backbone: 0.01, base: 0.001}] and the trainable
    parameters [backbone.conv1.weight] and [head.fc.weight], the
    registered optimizer constructor is called with the group list that
    gives the first parameter the rate 0.01 and the second the rate
    0.001, with the base rate 0.001, and with the optimizer's arguments. *)
Theorem build_optimizer_backbone_and_head (cfg : optim_cfg) (model : Model) (w : World)
    (optimizer_builder : list param_group -> Rate -> ArgsDict -> outcome Optimizer)
    (conv1 fc : param) :
  LR cfg = <["backbone" := 0.01%Q]> (<["base" := 0.001%Q]> ∅) ->
  named_parameters (unwrap model)
    = [("backbone.conv1.weight", conv1); ("head.fc.weight", fc)] ->
  requires_grad conv1 = true -> requires_grad fc = true ->
  optimizers R !! OPTIM_NAME cfg = Some optimizer_builder ->
  build_optimizer R cfg model w
  = (optimizer_builder
       [{| params := conv1; lr := 0.01%Q |}; {| params := fc; lr := 0.001%Q |}]
       0.001%Q (tltd (OPTIM_ARGS cfg)),
     {| fs := fs w; trace := trace w ++ [EvGet Optimizers (OPTIM_NAME cfg)] |}).
Proof.
  intros Hrates Hparams Hconv1 Hfc Hbuilder.
  apply (build_optimizer_groups R cfg model w optimizer_builder 0.001%Q
           [[{| params := conv1; lr := 0.01%Q |}]; [{| params := fc; lr := 0.001%Q |}]]
           Hbuilder).
  - rewrite Hrates. reflexivity.
  - rewrite Hparams, Hrates. unfold groups_for. simpl mapM at 1.
    cbn [fst snd]. rewrite Hconv1, Hfc.
    change (group_keys "backbone.conv1.weight") with ["backbone"].
    change (group_keys "head.fc.weight") with ["base"].
    reflexivity.
Qed.

End BuildOptimizerClaims.

Module BuildOptimizerExamples.

Import Toy BuildOptimizerInputs.

(** C4 on a plain and on a wrapped model. *)
Lemma build_optimizer_backbone_and_head_witness :
  build_optimizer library two_rates (Plain two_layers) (world_of [])
    = (Returned ([(1%nat, 0.01%Q); (2%nat, 0.001%Q)], 0.001%Q), looked_up) /\
  build_optimizer library two_rates (DataParallel two_layers) (world_of [])
    = (Returned ([(1%nat, 0.01%Q); (2%nat, 0.001%Q)], 0.001%Q), looked_up).
Proof.
  split.
  - rewrite (build_optimizer_backbone_and_head library two_rates (Plain two_layers)
               (world_of []) sgd (trainable 1) (trainable 2));
      reflexivity.
  - rewrite (build_optimizer_backbone_and_head library two_rates (DataParallel two_layers)
               (world_of []) sgd (trainable 1) (trainable 2));
      reflexivity.
Defined.

(** C2 as stated fails: the one parameter [encoder.heads.0.weight] ends
    up in two groups, at the encoder rate and at the heads rate, not in
    the single group of its first tag. *)
Lemma multi_tag_parameter_in_two_groups :
  first_key "encoder.heads.0.weight" = "encoder" /\
  build_optimizer library all_rates
    (Plain {| named_parameters := [("encoder.heads.0.weight", trainable 2)] |})
    (world_of [])
  = (Returned ([(2%nat, 0.02%Q); (2%nat, 0.04%Q)], 0.001%Q), looked_up) /\
  build_optimizer library all_rates
    (Plain {| named_parameters := [("encoder.heads.0.weight", trainable 2)] |})
    (world_of [])
  <> (Returned ([(2%nat, 0.02%Q)], 0.001%Q), looked_up).
Proof.
  split; [reflexivity |]. split; [vm_compute; reflexivity |].
  intros Heq. vm_compute in Heq. discriminate Heq.
Qed.

(** C3 on [nested_heads]. *)
Lemma multi_tag_parameter_repeated_witness :
  build_optimizer library all_rates (Plain nested_heads) (world_of [])
    = (Returned ([(1%nat, 0.01%Q); (2%nat, 0.02%Q); (2%nat, 0.04%Q); (4%nat, 0.001%Q)],
                 0.001%Q), looked_up) /\
  exists groups_before groups groups_after,
    groups_of (LR all_rates) [("backbone.conv1.weight", trainable 1)] = Some groups_before /\
    groups_of (LR all_rates) [("backbone.bn1.bias", frozen 3); ("fc.bias", trainable 4)]
      = Some groups_after /\
    Forall2 (fun tag g => params g = trainable 2 /\ LR all_rates !! tag = Some (lr g))
      (matching_tags "encoder.heads.0.weight") groups /\
    length groups = length (matching_tags "encoder.heads.0.weight") /\
    build_optimizer library all_rates (Plain nested_heads) (world_of [])
    = (sgd (groups_before ++ groups ++ groups_after) 0.001%Q (tltd (OPTIM_ARGS all_rates)),
       looked_up).
Proof.
  split; [vm_compute; reflexivity |].
  apply (multi_tag_parameter_repeated library all_rates (Plain nested_heads) (world_of [])
           sgd 0.001%Q [("backbone.conv1.weight", trainable 1)]
           [("backbone.bn1.bias", frozen 3); ("fc.bias", trainable 4)]
           "encoder.heads.0.weight" (trainable 2));
    try reflexivity; first [eexists; reflexivity | vm_compute; lia].
Defined.

(** C2, amended, on [nested_heads]: [backbone.conv1.weight] has one tag,
    [fc.bias] has none. *)
Lemma single_tag_parameter_one_group_witness :
  (first_key "backbone.conv1.weight" = "backbone" /\
   exists groups_before rate groups_after,
     groups_of (LR all_rates) [] = Some groups_before /\
     groups_of (LR all_rates)
       [("encoder.heads.0.weight", trainable 2); ("backbone.bn1.bias", frozen 3);
        ("fc.bias", trainable 4)] = Some groups_after /\
     LR all_rates !! first_key "backbone.conv1.weight" = Some rate /\
     build_optimizer library all_rates (Plain nested_heads) (world_of [])
     = (sgd (groups_before ++ [{| params := trainable 1; lr := rate |}] ++ groups_after)
          0.001%Q (tltd (OPTIM_ARGS all_rates)),
        looked_up)) /\
  (first_key "fc.bias" = "base" /\
   exists groups_before rate groups_after,
     groups_of (LR all_rates)
       [("backbone.conv1.weight", trainable 1); ("encoder.heads.0.weight", trainable 2);
        ("backbone.bn1.bias", frozen 3)] = Some groups_before /\
     groups_of (LR all_rates) [] = Some groups_after /\
     LR all_rates !! first_key "fc.bias" = Some rate /\
     build_optimizer library all_rates (Plain nested_heads) (world_of [])
     = (sgd (groups_before ++ [{| params := trainable 4; lr := rate |}] ++ groups_after)
          0.001%Q (tltd (OPTIM_ARGS all_rates)),
        looked_up)).
Proof.
  split; (split; [reflexivity |]).
  - apply (single_tag_parameter_one_group library all_rates (Plain nested_heads)
             (world_of []) sgd 0.001%Q [] _ "backbone.conv1.weight" (trainable 1));
      try reflexivity; first [eexists; reflexivity | vm_compute; lia].
  - apply (single_tag_parameter_one_group library all_rates (Plain nested_heads)
             (world_of []) sgd 0.001%Q
             [("backbone.conv1.weight", trainable 1); ("encoder.heads.0.weight", trainable 2);
              ("backbone.bn1.bias", frozen 3)] [] "fc.bias" (trainable 4));
      try reflexivity; first [eexists; reflexivity | vm_compute; lia].
Defined.

End BuildOptimizerExamples.

(** ** Reading without writing *)

Section ReadOnlyProps.

Context `{OS}.

Lemma reads_only_ret {A} (a : A) : reads_only (ret a).
Proof. intros w. split; reflexivity. Qed.

Lemma reads_only_raise {A} (e : exn) : reads_only (raise (A := A) e).
Proof. intros w. split; reflexivity. Qed.

Lemma reads_only_os_read {A} (call : FS -> option A) (path : string) :
  reads_only (os_read call path).
Proof.
  intros w. unfold os_read. split.
  - destruct (call (fs w)); reflexivity.
  - intros w' ->. destruct (call (fs w)); reflexivity.
Qed.

Lemma reads_only_bind {A B} (c : Py A) (k : A -> Py B) :
  reads_only c -> (forall a, reads_only (k a)) -> reads_only (bind c k).
Proof.
  intros Hc Hk w. destruct (Hc w) as [Hw Hsame]. unfold bind. split.
  - destruct (c w) as [[a | e |] w1]; simpl in Hw; subst w1; [| reflexivity ..].
    apply (Hk a w).
  - intros w' Hfs. specialize (Hsame w' Hfs). destruct (Hc w') as [Hw' _].
    destruct (c w) as [[a | e |] w1], (c w') as [[a' | e' |] w1'];
      simpl in *; subst; try discriminate Hsame; try (now inversion Hsame).
    injection Hsame as ->. now apply (Hk a w).
Qed.

Lemma reads_only_for_each {A S} (xs : list A) (body : A -> S -> Py S) (acc : S) :
  (forall x acc, reads_only (body x acc)) -> reads_only (for_each xs body acc).
Proof.
  intros Hbody. revert acc. induction xs as [| x xs IH]; intros acc; simpl.
  - apply reads_only_ret.
  - apply reads_only_bind; [apply Hbody | exact IH].
Qed.

Lemma load_categories_reads_only (root : string) : reads_only (_load_categories root).
Proof.
  unfold _load_categories. apply reads_only_bind; [apply reads_only_os_read |].
  intros sub_dirs. apply reads_only_for_each. intros name [c2i i2c].
  destruct (PyStr.split_on "." name) as [| index [| category [| extra fields]]];
    try apply reads_only_raise.
  destruct (PyStr.int index); [apply reads_only_ret | apply reads_only_raise].
Qed.

Lemma load_samples_reads_only (root split : string) : reads_only (_load_samples root split).
Proof.
  unfold _load_samples. apply reads_only_bind; [apply reads_only_os_read |].
  intros lines. apply reads_only_bind.
  - apply reads_only_for_each. intros line image_ids.
    destruct (PyStr.split_ws line) as [| image_id [| is_train [| extra fields]]];
      try apply reads_only_raise.
    destruct (String.eqb _ is_train); apply reads_only_ret.
  - intros image_ids. apply reads_only_bind; [apply reads_only_os_read |].
    intros lines'. apply reads_only_for_each. intros line found.
    destruct (PyStr.split_ws line) as [| image_id [| image_path [| extra fields]]];
      try apply reads_only_raise.
    destruct (existsb _ image_ids); apply reads_only_ret.
Qed.

(** X1.  Constructing a [CUB_200_2011] without [download] only reads:
    whatever the outcome (an object, an [AssertionError], an [OSError], a
    [ValueError]), the file system and the trace are left untouched, and
    the outcome is the same in any world with the same file system. *)
Theorem init_without_download_reads_only (root mode : string) :
  reads_only (CUB_200_2011_init root mode false).
Proof.
  unfold CUB_200_2011_init. destruct (negb _); [apply reads_only_raise |].
  apply reads_only_bind; [apply reads_only_ret |]. intros _.
  apply reads_only_bind; [apply load_categories_reads_only |]. intros categories.
  apply reads_only_bind; [apply load_samples_reads_only |]. intros found.
  apply reads_only_ret.
Qed.

End ReadOnlyProps.

Section InitWithDownloadProps.

Context `{OS}.

Lemma download_with_copy_present (root : string) (w : World) :
  path_exists (fs w) (op.join root ["CUB_200_2011"]) = true ->
  download root false w
  = (Returned tt,
     {| fs := fs w; trace := trace w ++ [EvPrint "The dataset already exist!"] |}).
Proof.
  intros Hcopy. unfold download. unfold bind at 1. unfold os_path_exists at 1.
  rewrite Hcopy. reflexivity.
Qed.

(** X2.  With the directory [root/CUB_200_2011] present, asking
    [__init__] to download changes nothing but one printed notice: it
    returns or raises exactly what it does without [download], and the
    file system is untouched. *)
Theorem init_download_with_copy_present (root mode : string) (w : World) :
  path_exists (fs w) (op.join root ["CUB_200_2011"]) = true ->
  mode = "train" \/ mode = "test" ->
  fst (CUB_200_2011_init root mode true w) = fst (CUB_200_2011_init root mode false w) /\
  snd (CUB_200_2011_init root mode true w)
  = {| fs := fs w; trace := trace w ++ [EvPrint "The dataset already exist!"] |}.
Proof.
  intros Hcopy Hmode.
  assert (Hvalid : negb (existsb (String.eqb mode) ["train"; "test"]) = false)
    by (destruct Hmode as [-> | ->]; reflexivity).
  pose proof (init_without_download_reads_only root mode) as Hread.
  unfold CUB_200_2011_init in *. rewrite Hvalid in *. cbn [negb] in *.
  set (rest := bind (_load_categories root) _) in *.
  set (w' := {| fs := fs w; trace := trace w ++ [EvPrint "The dataset already exist!"] |}).
  assert (Hrest : reads_only rest) by (intros w0; exact (Hread w0)).
  assert (Hwith : bind (download root false) (fun _ => rest) w = rest w').
  { unfold bind at 1. rewrite (download_with_copy_present root w Hcopy). reflexivity. }
  assert (Hwithout : bind (ret tt) (fun _ => rest) w = rest w) by reflexivity.
  rewrite Hwith, Hwithout. split.
  - apply (Hrest w). reflexivity.
  - apply (Hrest w').
Qed.

End InitWithDownloadProps.

(** ** [_load_samples] on any split file *)

Section LoadSamplesProps.

Context `{OS}.

Lemma for_each_app {A S} (xs ys : list A) (body : A -> S -> Py S) (acc : S) (w : World) :
  for_each (xs ++ ys) body acc w
  = bind (for_each xs body acc) (fun acc' => for_each ys body acc') w.
Proof.
  revert acc w. induction xs as [| x xs IH]; intros acc w; [reflexivity |].
  rewrite <- app_comm_cons. cbn [for_each]. rewrite bind_assoc.
  unfold bind at 1 2. destruct (body x acc w) as [[acc' | e |] w']; [| reflexivity ..].
  apply IH.
Qed.

(** The first loop collects the identifiers of the flagged rows. *)
Lemma collect_flagged_ids (flag : string) (lines : list string)
    (rows : list (string * string)) (acc : list string) (w : World) :
  Forall2 manifest_row lines rows ->
  for_each lines
    (fun line (image_ids : list string) =>
       match PyStr.split_ws line with
       | [image_id; is_train] =>
           if String.eqb flag is_train
           then ret (image_ids ++ [image_id])
           else ret image_ids
       | _ => raise (ValueError line)
       end)
    acc w
  = (Returned (acc ++ flagged_ids flag rows), w).
Proof.
  intros Hrows. revert acc.
  induction Hrows as [| line [image_id is_train] lines rows Hrow _ IH]; intros acc.
  - simpl. now rewrite app_nil_r.
  - unfold manifest_row in Hrow. cbn [fst snd] in Hrow. destruct Hrow as [_ Hrow].
    cbn [for_each]. unfold bind at 1. rewrite Hrow.
    unfold flagged_ids. cbn [List.filter snd].
    destruct (String.eqb flag is_train); run_py; rewrite IH.
    + cbn [map fst]. now rewrite <- app_assoc.
    + reflexivity.
Qed.

(** The second loop appends a path for each row with a collected
    identifier. *)
Lemma collect_flag_samples (root : string) (image_ids : list string)
    (lines : list string) (rows : list (string * string)) (acc : list string)
    (w : World) :
  Forall2 manifest_row lines rows ->
  for_each lines
    (fun line (samples : list string) =>
       match PyStr.split_ws line with
       | [image_id; image_path] =>
           if existsb (String.eqb image_id) image_ids
           then ret (samples ++ [op.join root [image_dir; image_path]])
           else ret samples
       | _ => raise (ValueError line)
       end)
    acc w
  = (Returned
       (acc ++ map (fun row => op.join root [image_dir; row.2])
                   (List.filter (fun row => existsb (String.eqb row.1) image_ids) rows)),
     w).
Proof.
  intros Hrows. revert acc.
  induction Hrows as [| line [image_id image_path] lines rows Hrow _ IH]; intros acc.
  - simpl. now rewrite app_nil_r.
  - unfold manifest_row in Hrow. cbn [fst snd] in Hrow. destruct Hrow as [_ Hrow].
    cbn [for_each]. unfold bind at 1. rewrite Hrow.
    cbn [List.filter fst].
    destruct (existsb (String.eqb image_id) image_ids); run_py; rewrite IH.
    + cbn [map snd]. now rewrite <- app_assoc.
    + reflexivity.
Qed.

Lemma unique_key_value {A B} (l : list (A * B)) (x : A) (y1 y2 : B) :
  NoDup l.*1 -> In (x, y1) l -> In (x, y2) l -> y1 = y2.
Proof.
  induction l as [| [x' y'] l IH]; intros Hnd Hin1 Hin2; [destruct Hin1 |].
  rewrite fmap_cons in Hnd. apply NoDup_cons in Hnd as [Hfresh Hnd]. simpl in Hfresh.
  assert (Hkey : forall y, In (x, y) l -> x <> x').
  { intros y Hy ->. apply Hfresh. apply list_elem_of_In.
    apply (in_map fst) in Hy. exact Hy. }
  destruct Hin1 as [[= -> ->] | Hin1], Hin2 as [[= <-] | Hin2].
  - reflexivity.
  - now destruct (Hkey _ Hin2).
  - subst. now destruct (Hkey _ Hin1).
  - now apply IH.
Qed.

Lemma flagged_iff_own_flag (flag : string) (rows : list (string * string))
    (row : string * string) :
  NoDup rows.*1 -> In row rows ->
  existsb (String.eqb row.1) (flagged_ids flag rows) = String.eqb flag row.2.
Proof.
  intros Hids Hin. destruct row as [id own]. cbn [fst snd].
  destruct (String.eqb flag own) eqn:Hown.
  - apply existsb_exists. exists id. split; [| apply String.eqb_refl].
    unfold flagged_ids. apply in_map_iff. exists (id, own). split; [reflexivity |].
    apply filter_In. now split.
  - apply not_true_is_false. intros (id' & Hflagged & ->%String.eqb_eq)%existsb_exists.
    unfold flagged_ids in Hflagged.
    apply in_map_iff in Hflagged as ([id'' other] & Hid & [Hother Hflag]%filter_In).
    cbn [fst snd] in *. subst id''.
    assert (other = own) by (eapply unique_key_value; eassumption).
    subst other. congruence.
Qed.

(** X3.  What [_load_samples] returns for any well-formed split file:
    both passes read the split file, so each selected row contributes the
    image directory joined with that row's flag field.  When no
    identifier occurs twice, the result has one entry per row carrying
    the flag of the split, and every entry is the same path, the image
    directory joined with the flag. *)
Theorem load_samples_from_split_rows (root split : string) (w : World)
    (lines : list string) (rows : list (string * string)) :
  readlines (fs w) (op.join root [split_file]) = Some lines ->
  Forall2 manifest_row lines rows ->
  _load_samples root split w
    = (Returned (flag_samples root (split_flag split) rows), w) /\
  (NoDup rows.*1 ->
   flag_samples root (split_flag split) rows
   = map (fun _ => op.join root [image_dir; split_flag split])
         (List.filter (fun row => String.eqb (split_flag split) row.2) rows)).
Proof.
  intros Hlines Hrows. split.
  - unfold _load_samples. fold (split_flag split).
    unfold bind at 1. unfold open_readlines, os_read. rewrite Hlines.
    unfold bind at 1. rewrite (collect_flagged_ids _ lines rows [] w Hrows).
    unfold bind at 1. rewrite Hlines.
    rewrite (collect_flag_samples root _ lines rows [] w Hrows). reflexivity.
  - intros Hids. unfold flag_samples.
    rewrite (filter_ext_in _ (fun row => String.eqb (split_flag split) row.2)).
    + apply map_ext_in. intros row [_ Hflag%String.eqb_eq]%filter_In. now rewrite <- Hflag.
    + intros row Hin. now apply flagged_iff_own_flag.
Qed.

(** X4.  An ASCII line of the split file without exactly two fields (a
    blank line, a line with a third column) makes [_load_samples] raise
    [ValueError] for that line, whatever follows it. *)
Theorem load_samples_malformed_line (root split : string) (w : World)
    (good : list string) (rows : list (string * string)) (bad : string)
    (rest : list string) :
  readlines (fs w) (op.join root [split_file]) = Some (good ++ bad :: rest) ->
  Forall2 manifest_row good rows ->
  is_ascii bad = true ->
  (forall image_id is_train, PyStr.split_ws bad <> [image_id; is_train]) ->
  _load_samples root split w = (Raised (ValueError bad), w).
Proof.
  intros Hlines Hrows _ Hbad. unfold _load_samples.
  unfold bind at 1. unfold open_readlines, os_read. rewrite Hlines.
  unfold bind at 1. rewrite for_each_app. unfold bind at 1.
  rewrite (collect_flagged_ids _ good rows [] w Hrows).
  cbn [for_each]. unfold bind at 1.
  destruct (PyStr.split_ws bad) as [| image_id [| is_train [| extra fields]]];
    try reflexivity.
  now destruct (Hbad image_id is_train).
Qed.

End LoadSamplesProps.

Module DatasetExamples.

Import Toy DatasetInputs.

(** X2 on [unpacked]. *)
Lemma init_download_with_copy_present_witness :
  fst (CUB_200_2011_init "/data" "train" true unpacked)
    = fst (CUB_200_2011_init "/data" "train" false unpacked) /\
  snd (CUB_200_2011_init "/data" "train" true unpacked)
    = {| fs := fs unpacked;
         trace := trace unpacked ++ [EvPrint "The dataset already exist!"] |}.
Proof.
  apply (init_download_with_copy_present "/data" "train" unpacked).
  - vm_compute. reflexivity.
  - left. reflexivity.
Defined.

(** X3 on [unpacked]: two training rows, two equal samples. *)
Lemma load_samples_from_split_rows_witness :
  _load_samples "/data" "train" unpacked
    = (Returned ["/data/CUB_200_2011/CUB_200_2011/images/1";
                 "/data/CUB_200_2011/CUB_200_2011/images/1"], unpacked) /\
  _load_samples "/data" "test" unpacked
    = (Returned ["/data/CUB_200_2011/CUB_200_2011/images/0"], unpacked).
Proof.
  split.
  - destruct (load_samples_from_split_rows "/data" "train" unpacked
                [line "1 0"; line "2 1"; line "3 1"] [("1", "0"); ("2", "1"); ("3", "1")])
      as [Hrun Hsame].
    + vm_compute. reflexivity.
    + repeat constructor.
    + rewrite Hrun, Hsame; [reflexivity |].
      apply (bool_decide_unpack _). vm_compute. exact I.
  - destruct (load_samples_from_split_rows "/data" "test" unpacked
                [line "1 0"; line "2 1"; line "3 1"] [("1", "0"); ("2", "1"); ("3", "1")])
      as [Hrun Hsame].
    + vm_compute. reflexivity.
    + repeat constructor.
    + rewrite Hrun, Hsame; [reflexivity |].
      apply (bool_decide_unpack _). vm_compute. exact I.
Defined.

(** X4 on [gapped]: the empty line stops the loading. *)
Lemma load_samples_malformed_line_witness :
  _load_samples "/data" "train" gapped = (Raised (ValueError (line "")), gapped).
Proof.
  apply (load_samples_malformed_line "/data" "train" gapped
           [line "1 0"] [("1", "0")] (line "") [line "3 1"]).
  - vm_compute. reflexivity.
  - repeat constructor.
  - reflexivity.
  - intros image_id is_train Hsplit. vm_compute in Hsplit. discriminate Hsplit.
Defined.

End DatasetExamples.

(** ** [_load_categories] on any listing, and the lookups *)

Section LoadCategoriesEdgeProps.

Context `{OS}.

(** The loop of [_load_categories] over well-formed names, from any
    pair of dictionaries. *)
Lemma fill_categories (names : list string) (entries : list (Z * string))
    (c2i : gmap string Z) (i2c : gmap Z string) (w : World) :
  Forall2 (fun name e => entry_form name e.1 e.2) names entries ->
  for_each names
    (fun name '((category2index, index2category) : gmap string Z * gmap Z string) =>
       match PyStr.split_on "." name with
       | [index; category] =>
           match PyStr.int index with
           | Some i =>
               ret (<[category := i - 1]> category2index,
                    <[i - 1 := category]> index2category)
           | None => raise (ValueError index)
           end
       | _ => raise (ValueError name)
       end)
    (c2i, i2c) w
  = (Returned (fill (map (fun e => (e.2, e.1 - 1)) entries) c2i,
               fill (map (fun e => (e.1 - 1, e.2)) entries) i2c), w).
Proof.
  intros Hforms. revert c2i i2c.
  induction Hforms as [| name [index category] names entries Hform _ IH]; intros c2i i2c.
  - reflexivity.
  - cbn [fst snd] in Hform. destruct Hform as (digits & -> & Hd & Hc & Hint).
    cbn [for_each]. unfold bind at 1. cbv beta iota.
    rewrite (split_on_form digits category Hd Hc), Hint.
    cbn [ret]. rewrite IH. reflexivity.
Qed.

(** X5.  An entry of the image directory that is not of the form
    [<index>.<name>] makes [_load_categories] raise [ValueError]: for the
    whole name when it does not split at exactly one dot (so for any name
    without a dot, such as a stray file), for the index text when that is
    ASCII text and not an integer literal (so for a hidden file, whose
    index text is empty). *)
Theorem load_categories_malformed_entry (root : string) (w : World)
    (good : list string) (entries : list (Z * string)) (bad : string)
    (rest : list string) :
  listdir (fs w) (op.join root [image_dir]) = Some (good ++ bad :: rest) ->
  Forall2 (fun name e => entry_form name e.1 e.2) good entries ->
  ((forall index category, PyStr.split_on "." bad <> [index; category]) ->
   _load_categories root w = (Raised (ValueError bad), w)) /\
  (dot_free bad = true ->
   _load_categories root w = (Raised (ValueError bad), w)) /\
  (forall index category,
     PyStr.split_on "." bad = [index; category] ->
     is_ascii index = true -> PyStr.int index = None ->
     _load_categories root w = (Raised (ValueError index), w)).
Proof.
  intros Hls Hgood.
  assert (Hrun : _load_categories root w
                 = match PyStr.split_on "." bad with
                   | [index; category] =>
                       match PyStr.int index with
                       | Some i =>
                           _load_categories root w
                       | None => (Raised (ValueError index), w)
                       end
                   | _ => (Raised (ValueError bad), w)
                   end).
  { destruct (PyStr.split_on "." bad) as [| index [| category [| extra fields]]] eqn:Hsplit;
      [| | destruct (PyStr.int index) eqn:Hint; [reflexivity |] |];
      unfold _load_categories; unfold bind at 1; unfold os_listdir, os_read; rewrite Hls;
      rewrite for_each_app; unfold bind at 1;
      rewrite (fill_categories good entries ∅ ∅ w Hgood);
      cbn [for_each]; unfold bind at 1; cbv beta iota; rewrite Hsplit;
      rewrite ?Hint; reflexivity. }
  split; [| split].
  - intros Hbad. rewrite Hrun.
    destruct (PyStr.split_on "." bad) as [| index [| category [| extra fields]]];
      try reflexivity.
    now destruct (Hbad index category).
  - intros Hfree. rewrite Hrun, (split_on_dot_free bad Hfree). reflexivity.
  - intros index category Hsplit _ Hint. rewrite Hrun, Hsplit, Hint. reflexivity.
Qed.

Lemma fill_member {K V} `{Countable K} (kvs : list (K * V)) (d : gmap K V) (k : K) :
  k ∈ kvs.*1 -> exists v, fill kvs d !! k = Some v /\ (k, v) ∈ kvs.
Proof.
  revert d. induction kvs as [| [k0 v0] kvs IH]; intros d Hk.
  - now apply elem_of_nil in Hk.
  - rewrite fill_cons. destruct (decide (k ∈ kvs.*1)) as [Hlater | Hlast].
    + destruct (IH (<[(k0, v0).1 := (k0, v0).2]> d) Hlater) as (v & Hv & Hin).
      exists v. split; [exact Hv |].
      apply elem_of_cons. now right.
    + rewrite fmap_cons in Hk. apply elem_of_cons in Hk as [-> | Hk]; [| contradiction].
      exists v0. rewrite fill_absent by exact Hlast. simpl. split.
      * apply lookup_insert_eq.
      * apply elem_of_cons. now left.
Qed.

(** X6.  On the index built from a well-formed listing,
    [encode_category] succeeds exactly on the names of the listing,
    returning [index - 1] of an entry with that name, and raises
    [KeyError] for any other name; [decode_category] raises [KeyError]
    for every integer that is not [index - 1] of an entry. *)
Theorem category_lookups_outside_the_index (root : string) (w : World)
    (sub_dirs : list string) (entries : list (Z * string)) :
  listdir (fs w) (op.join root [image_dir]) = Some sub_dirs ->
  Forall2 (fun name e => entry_form name e.1 e.2) sub_dirs entries ->
  exists c2i i2c,
    _load_categories root w = (Returned (c2i, i2c), w) /\
    forall self,
      category2index self = c2i -> index2category self = i2c ->
      (forall category,
         category ∈ entries.*2 ->
         exists index,
           (index, category) ∈ entries /\
           encode_category self category = Returned (index - 1)) /\
      (forall category,
         category ∉ entries.*2 ->
         encode_category self category = Raised (KeyError (KStr category))) /\
      (forall index,
         index + 1 ∉ entries.*1 ->
         decode_category self index = Raised (KeyError (KInt index))).
Proof.
  intros Hls Hforms.
  eexists _, _. split; [exact (load_categories_fills root w sub_dirs entries Hls Hforms) |].
  intros self Hc2i Hi2c. unfold encode_category, decode_category. rewrite Hc2i, Hi2c.
  split; [| split].
  - intros category Hin.
    destruct (fill_member (map (fun e : Z * string => (e.2, e.1 - 1)) entries) ∅ category)
      as (v & Hv & Hmem).
    { rewrite <- list_fmap_compose. exact Hin. }
    apply list_elem_of_fmap in Hmem as ([index name] & [= -> ->] & Hentry).
    exists index. rewrite Hv. now split.
  - intros category Hnew. rewrite fill_absent, lookup_empty; [reflexivity |].
    rewrite <- list_fmap_compose. exact Hnew.
  - intros index Hnew. rewrite fill_absent, lookup_empty; [reflexivity |].
    rewrite <- list_fmap_compose.
    intros ([index' name] & Heq & Hentry)%list_elem_of_fmap. simpl in Heq.
    apply Hnew. apply list_elem_of_fmap. exists (index', name). split; [simpl; lia | exact Hentry].
Qed.

End LoadCategoriesEdgeProps.

Module DatasetEdgeExamples.

Import Toy DatasetInputs DatasetEdgeInputs LoadCategoriesInputs.

(** X5 on [littered] and on [hidden]. *)
Lemma load_categories_malformed_entry_witness :
  _load_categories "/data" littered = (Raised (ValueError "README"), littered) /\
  _load_categories "/data" hidden = (Raised (ValueError ""), hidden).
Proof.
  split.
  - apply (proj1 (proj2 (load_categories_malformed_entry "/data" littered [] [] "README"
                           ["001.Black_footed_Albatross"]
                           ltac:(vm_compute; reflexivity) ltac:(constructor)))).
    reflexivity.
  - apply (proj2 (proj2 (load_categories_malformed_entry "/data" hidden [] [] ".DS_Store"
                           ["001.Black_footed_Albatross"]
                           ltac:(vm_compute; reflexivity) ltac:(constructor)))
             "" "DS_Store");
      reflexivity.
Defined.

(** X6 on [aviary]: a species of the listing, one that is missing, and
    an index past the end. *)
Lemma category_lookups_outside_the_index_witness :
  exists c2i i2c,
    _load_categories "/data" aviary = (Returned (c2i, i2c), aviary) /\
    (exists index, c2i !! "Sooty_Albatross" = Some (index - 1)) /\
    c2i !! "Dodo" = None /\
    i2c !! 3 = None.
Proof.
  destruct (category_lookups_outside_the_index "/data" aviary
              ["003.Sooty_Albatross"; "001.Black_footed_Albatross"; "002.Laysan_Albatross"]
              aviary_entries)
    as (c2i & i2c & Hload & Hmaps).
  - vm_compute. reflexivity.
  - repeat constructor.
    + now exists "003".
    + now exists "001".
    + now exists "002".
  - exists c2i, i2c. split; [exact Hload |].
    destruct (Hmaps {| root := "/data"; category2index := c2i;
                       index2category := i2c; samples := [] |} eq_refl eq_refl)
      as (Hknown & Hunknown & Hpast).
    unfold encode_category, decode_category in *. simpl in *. split; [| split].
    + destruct (Hknown "Sooty_Albatross") as (index & _ & Henc).
      { apply (bool_decide_unpack _). vm_compute. exact I. }
      exists index. destruct (c2i !! "Sooty_Albatross"); [now injection Henc as -> | discriminate].
    + specialize (Hunknown "Dodo"). destruct (c2i !! "Dodo"); [| reflexivity].
      discriminate Hunknown. apply (bool_decide_unpack _). vm_compute. exact I.
    + specialize (Hpast 3). destruct (i2c !! 3); [| reflexivity].
      discriminate Hpast. apply (bool_decide_unpack _). vm_compute. exact I.
Defined.

End DatasetEdgeExamples.

(** ** [_extract_file] and [_un_tgz] on any package *)

Section ExtractProps.

Context `{OS}.



Lemma split_on_first_field (stem rest : string) :
  dot_free stem = true ->
  hd "" (PyStr.split_on "." (stem +:+ "." +:+ rest)) = stem.
Proof.
  intros Hstem. induction stem as [| c stem IH].
  - rewrite sapp_nil_l. reflexivity.
  - simpl in Hstem. apply andb_true_iff in Hstem as [Hc Hstem]. apply negb_true_iff in Hc.
    change (String c stem +:+ "." +:+ rest) with (String c (stem +:+ "." +:+ rest)).
    simpl. rewrite Hc. specialize (IH Hstem).
    destruct (PyStr.split_on "." (stem +:+ "." +:+ rest)) as [| field fields].
    + simpl in IH. now subst stem.
    + simpl in IH. now subst field.
Qed.

(** X8.  [_un_tgz] extracts into the directory, next to the package,
    named by the package's base name up to its first dot: for
    [data.v1.tgz] that is [data]; for a base name without a dot it is the
    base name itself.  If the extraction raises, the exception reaches the
    caller. *)
Theorem un_tgz_destination (package stem : string) (w : World) :
  dot_free stem = true ->
  (exists rest, op.basename package = stem +:+ "." +:+ rest) \/ op.basename package = stem ->
  let dest := op.join (op.dirname package) [stem] in
  _un_tgz package w =
    match tar_extractall (fs w) package dest with
    | Some fs' =>
        (Returned tt, {| fs := fs'; trace := trace w ++ [EvExtract package dest] |})
    | None =>
        (Raised (OSError package),
         {| fs := fs w; trace := trace w ++ [EvExtract package dest] |})
    end.
Proof.
  intros Hstem Hbase dest.
  assert (Hfield : hd "" (PyStr.split_on "." (op.basename package)) = stem).
  { destruct Hbase as [[rest ->] | ->].
    - now apply split_on_first_field.
    - now rewrite split_on_dot_free. }
  unfold _un_tgz. rewrite Hfield. fold dest. run_py.
  destruct (tar_extractall _ _ _); reflexivity.
Qed.

End ExtractProps.

Module ExtractExamples.

Import Toy DownloadInputs.

(** X8 on an archive whose base name has two dots. *)
Lemma un_tgz_destination_witness :
  trace (snd (_un_tgz "/data/birds.v1.tgz"
                (world_of [("/data", Dir); ("/data/birds.v1.tgz", Archive members)])))
  = [EvExtract "/data/birds.v1.tgz" "/data/birds"] /\
  fst (_un_tgz "/data/birds.v1.tgz"
         (world_of [("/data", Dir); ("/data/birds.v1.tgz", Archive members)]))
  = Returned tt.
Proof.
  rewrite (un_tgz_destination "/data/birds.v1.tgz" "birds"
             (world_of [("/data", Dir); ("/data/birds.v1.tgz", Archive members)])
             eq_refl (or_introl (ex_intro _ "v1.tgz" eq_refl))).
  split; vm_compute; reflexivity.
Defined.

End ExtractExamples.

(** ** [build_optimizer]: which parameters are grouped, and how it fails *)

Section BuildOptimizerEdgeProps.

Context `{OS}.

Variable R : registries.

Lemma mapM_cons_None {A B} (f : A -> option B) (x : A) (xs : list A) :
  mapM f (x :: xs) = None ->
  f x = None \/ exists y, f x = Some y /\ mapM f xs = None.
Proof.
  simpl. destruct (f x) as [y |]; simpl; [| now left].
  destruct (mapM f xs); simpl; [discriminate |]. intros _. right. now exists y.
Qed.

(** What [build_optimizer] does once the parameter loop has produced
    its groups. *)
Lemma build_optimizer_after_loop (cfg : optim_cfg) (model : Model) (w : World)
    (segs : list (list param_group)) :
  mapM (groups_for (LR cfg)) (named_parameters (unwrap model)) = Some segs ->
  build_optimizer R cfg model w
  = bind (get_optimizer R (OPTIM_NAME cfg))
      (fun optimizer_builder =>
         base <- getattr (LR cfg) "base" ;;
         lift (optimizer_builder (concat segs) base (tltd (OPTIM_ARGS cfg)))) w.
Proof.
  intros Hsegs. unfold build_optimizer. fold (unwrap model). cbv zeta. unfold bind at 1.
  match goal with
  | |- context [for_each _ ?body []] =>
      assert (Hloop : forall nps acc segs,
                mapM (groups_for (LR cfg)) nps = Some segs ->
                for_each nps body acc w = (Returned (acc ++ concat segs), w))
  end.
  { induction nps as [| np nps IH]; intros acc segs' Hsegs'.
    - injection Hsegs' as <-. simpl. now rewrite app_nil_r.
    - apply mapM_cons_Some in Hsegs' as (seg & rest & Hseg & Hrest & ->).
      cbn [for_each]. unfold bind at 1.
      pose proof (parameter_appends cfg np acc seg w Hseg) as Hbody.
      match goal with
      | |- (let (_, _) := ?run in _) = _ =>
          replace run with (Returned (acc ++ seg), w) by (symmetry; exact Hbody)
      end.
      rewrite (IH _ _ Hrest). simpl. now rewrite app_assoc. }
  rewrite (Hloop _ [] segs Hsegs). reflexivity.
Qed.

Lemma groups_for_sound (rates : gmap string Rate) (np : string * param)
    (seg : list param_group) (g : param_group) :
  groups_for rates np = Some seg -> g ∈ seg ->
  params g = np.2 /\ requires_grad np.2 = true /\
  exists key, key ∈ group_keys np.1 /\ rates !! key = Some (lr g).
Proof.
  unfold groups_for. destruct (requires_grad np.2) eqn:Htrain.
  - intros Hseg%rate_groups_by_key Hg.
    induction Hseg as [| key g' keys seg [Hp Hrate] _ IH]; [now apply elem_of_nil in Hg |].
    apply elem_of_cons in Hg as [-> | Hg].
    + repeat split; [exact Hp |]. exists key. split; [apply elem_of_cons; now left | exact Hrate].
    + destruct (IH Hg) as (Hp' & _ & key' & Hkey' & Hrate').
      repeat split; [exact Hp' |]. exists key'. split; [apply elem_of_cons; now right | exact Hrate'].
  - intros [= <-] Hg. now apply elem_of_nil in Hg.
Qed.

Lemma groups_for_nonempty (rates : gmap string Rate) (n : string) (p : param)
    (seg : list param_group) :
  groups_for rates (n, p) = Some seg -> requires_grad p = true ->
  exists g, g ∈ seg /\ params g = p.
Proof.
  unfold groups_for. simpl. intros Hseg Htrain. rewrite Htrain in Hseg.
  apply rate_groups_by_key in Hseg.
  assert (Hkeys : group_keys n <> []).
  { unfold group_keys. now destruct (matching_tags n). }
  destruct Hseg as [| key g keys seg [Hp _] _]; [contradiction |].
  exists g. split; [apply elem_of_cons; now left | exact Hp].
Qed.

(** X9.  The groups handed to the optimizer constructor hold the
    trainable parameters and nothing else: every group's parameter is a
    trainable parameter of the model, at a rate that the config stores
    under one of the keys of its name; every trainable parameter is in at
    least one group; a frozen parameter is in none. *)
Theorem build_optimizer_groups_trainable (cfg : optim_cfg) (model : Model) (w : World)
    (optimizer_builder : list param_group -> Rate -> ArgsDict -> outcome Optimizer)
    (base : Rate) :
  optimizers R !! OPTIM_NAME cfg = Some optimizer_builder ->
  LR cfg !! "base" = Some base ->
  is_Some (groups_of (LR cfg) (named_parameters (unwrap model))) ->
  exists groups,
    build_optimizer R cfg model w
    = (optimizer_builder groups base (tltd (OPTIM_ARGS cfg)),
       {| fs := fs w; trace := trace w ++ [EvGet Optimizers (OPTIM_NAME cfg)] |}) /\
    (forall g, g ∈ groups ->
       requires_grad (params g) = true /\
       exists n key,
         (n, params g) ∈ named_parameters (unwrap model) /\
         key ∈ group_keys n /\ LR cfg !! key = Some (lr g)) /\
    (forall n p, (n, p) ∈ named_parameters (unwrap model) ->
       requires_grad p = true -> exists g, g ∈ groups /\ params g = p).
Proof.
  intros Hbuilder Hbase [all_groups Hall]. unfold groups_of in Hall.
  destruct (mapM _ _) as [segs |] eqn:Hsegs; [| discriminate Hall]. clear Hall.
  exists (concat segs). split.
  { rewrite (build_optimizer_after_loop cfg model w segs Hsegs).
    unfold get_optimizer, get, getattr. rewrite Hbuilder, Hbase. run_py. reflexivity. }
  revert segs Hsegs. generalize (named_parameters (unwrap model)).
  induction l as [| [n0 p0] nps IH]; intros segs Hsegs.
  - injection Hsegs as <-. split.
    + intros g Hg. now apply elem_of_nil in Hg.
    + intros n p Hin. now apply elem_of_nil in Hin.
  - apply mapM_cons_Some in Hsegs as (seg & rest & Hseg & Hrest & ->).
    destruct (IH rest Hrest) as [Hsound Hcomplete]. rewrite concat_cons. split.
    + intros g [Hg | Hg]%elem_of_app.
      * destruct (groups_for_sound _ _ _ _ Hseg Hg) as (Hp & Htrain & key & Hkey & Hrate).
        simpl in Hp, Htrain, Hkey. subst p0. split; [exact Htrain |].
        exists n0, key. repeat split; [apply elem_of_cons; now left | exact Hkey | exact Hrate].
      * destruct (Hsound g Hg) as (Htrain & n & key & Hin & Hkey & Hrate).
        split; [exact Htrain |]. exists n, key.
        repeat split; [apply elem_of_cons; now right | exact Hkey | exact Hrate].
    + intros n p [[= -> ->] | Hin]%elem_of_cons Htrain.
      * destruct (groups_for_nonempty _ _ _ _ Hseg Htrain) as (g & Hg & Hp).
        exists g. split; [apply elem_of_app; now left | exact Hp].
      * destruct (Hcomplete n p Hin Htrain) as (g & Hg & Hp).
        exists g. split; [apply elem_of_app; now right | exact Hp].
Qed.

(** X10.  When the groups are built but the optimizer cannot be made:
    an unregistered [OPTIMIZER.NAME] raises the registry's NotFound error;
    a config without [LR.base] raises [AttributeError] for ["base"], even
    if every parameter took the rate of a tag.  In both cases the registry
    has been consulted and no optimizer constructor has run. *)
Theorem build_optimizer_cannot_construct (cfg : optim_cfg) (model : Model) (w : World) :
  is_Some (groups_of (LR cfg) (named_parameters (unwrap model))) ->
  let looked_up :=
    {| fs := fs w; trace := trace w ++ [EvGet Optimizers (OPTIM_NAME cfg)] |} in
  (optimizers R !! OPTIM_NAME cfg = None ->
   build_optimizer R cfg model w
   = (Raised (NotFound Optimizers (OPTIM_NAME cfg)), looked_up)) /\
  (is_Some (optimizers R !! OPTIM_NAME cfg) -> LR cfg !! "base" = None ->
   build_optimizer R cfg model w = (Raised (AttributeError "base"), looked_up)).
Proof.
  intros [all_groups Hall] looked_up. unfold groups_of in Hall.
  destruct (mapM _ _) as [segs |] eqn:Hsegs; [| discriminate Hall].
  rewrite (build_optimizer_after_loop cfg model w segs Hsegs).
  unfold get_optimizer, get, getattr. split.
  - intros ->. run_py. reflexivity.
  - intros [optimizer_builder ->] ->. run_py. reflexivity.
Qed.

End BuildOptimizerEdgeProps.

Section BuildOptimizerMissingRate.

Context `{OS}.

Variable R : registries.

(** The loop over [model_attrs] stops at the first matching tag without
    a rate. *)
Lemma tag_loop_raises (rates : gmap string Rate) (n : string) (p : param)
    (tags : list string) (w : World) :
  mapM (rate_group rates p) (List.filter (fun attr => PyStr.contains attr n) tags) = None ->
  exists key,
    key ∈ tags /\ PyStr.contains key n = true /\ rates !! key = None /\
    forall (is_other : bool) (acc : list param_group),
      for_each tags
        (fun attr '((is_other, params) : bool * list param_group) =>
           if PyStr.contains attr n then
             let is_other := false in
             rate <- getitem rates attr ;;
             ret (is_other, params ++ [{| params := p; lr := rate |}])
           else ret (is_other, params))
        (is_other, acc) w
      = (Raised (KeyError (KStr key)), w).
Proof.
  induction tags as [| tag tags IH]; intros Hnone; [discriminate Hnone |].
  cbn [List.filter] in Hnone. destruct (PyStr.contains tag n) eqn:Htag.
  - apply mapM_cons_None in Hnone as [Hrate | (g & Hg & Hrest)].
    + exists tag. unfold rate_group in Hrate.
      destruct (rates !! tag) eqn:Hlook; [discriminate Hrate |].
      repeat split; [apply elem_of_cons; now left | exact Htag |].
      intros is_other acc. cbn [for_each]. unfold bind at 1. rewrite Htag.
      unfold getitem. rewrite Hlook. reflexivity.
    + destruct (IH Hrest) as (key & Hin & Hcontains & Hlook & Hrun).
      exists key. repeat split; [apply elem_of_cons; now right | assumption .. |].
      intros is_other acc. cbn [for_each]. unfold bind at 1. rewrite Htag.
      unfold rate_group in Hg. unfold getitem.
      destruct (rates !! tag); [| discriminate Hg]. run_py. apply Hrun.
  - destruct (IH Hnone) as (key & Hin & Hcontains & Hlook & Hrun).
    exists key. repeat split; [apply elem_of_cons; now right | assumption .. |].
    intros is_other acc. cbn [for_each]. unfold bind at 1. rewrite Htag. run_py. apply Hrun.
Qed.

(** The body of the outer loop for a parameter one of whose rates is
    missing. *)
Lemma parameter_raises (cfg : optim_cfg) (np : string * param) (w : World) :
  groups_for (LR cfg) np = None ->
  exists key,
    key ∈ group_keys np.1 /\ LR cfg !! key = None /\
    forall acc : list param_group,
      (let '(n, p) := np in
       fun params : list param_group =>
         let is_other := true in
         if requires_grad p then
           bind
             (for_each model_attrs
                (fun attr '((is_other, params) : bool * list param_group) =>
                   if PyStr.contains attr n then
                     let is_other := false in
                     rate <- getitem (LR cfg) attr ;;
                     ret (is_other, params ++ [{| params := p; lr := rate |}])
                   else ret (is_other, params))
                (is_other, params))
             (fun '(is_other, params) =>
                if (is_other : bool) then
                  rate <- getitem (LR cfg) "base" ;;
                  ret (params ++ [{| params := p; lr := rate |}])
                else ret params)
         else ret params) acc w
      = (Raised (KeyError (KStr key)), w).
Proof.
  destruct np as [n p]. unfold groups_for, group_keys, matching_tags. simpl fst. simpl snd.
  cbv zeta. destruct (requires_grad p); [| discriminate].
  destruct (List.filter (fun attr => PyStr.contains attr n) model_attrs)
    as [| tag tags] eqn:Htags; intros Hnone.
  - exists "base". apply mapM_cons_None in Hnone as [Hrate | (g & _ & Hrest)];
      [| discriminate Hrest].
    unfold rate_group in Hrate. destruct (LR cfg !! "base") eqn:Hbase; [discriminate Hrate |].
    repeat split; [apply elem_of_cons; now left |].
    intros acc. unfold bind at 1.
    rewrite (tag_loop_appends (LR cfg) n p model_attrs true acc []) by now rewrite Htags.
    rewrite Htags. unfold getitem. rewrite Hbase. reflexivity.
  - rewrite <- Htags in Hnone.
    destruct (tag_loop_raises (LR cfg) n p model_attrs w Hnone)
      as (key & Hin & Hcontains & Hlook & Hrun).
    exists key. repeat split; [| exact Hlook |].
    + rewrite <- Htags. apply list_elem_of_In, filter_In. split; [| exact Hcontains].
      now apply list_elem_of_In.
    + intros acc. unfold bind at 1. rewrite Hrun. reflexivity.
Qed.

(** X11.  If the config lacks the rate of a key that some trainable
    parameter needs (a matching tag, or ["base"] for a name without tag),
    [build_optimizer] raises [KeyError] for such a key while it is still
    grouping: the optimizer registry is never consulted and the world is
    left as it was. *)
Theorem build_optimizer_missing_rate (cfg : optim_cfg) (model : Model) (w : World) :
  groups_of (LR cfg) (named_parameters (unwrap model)) = None ->
  exists n p key,
    (n, p) ∈ named_parameters (unwrap model) /\ requires_grad p = true /\
    key ∈ group_keys n /\ LR cfg !! key = None /\
    build_optimizer R cfg model w = (Raised (KeyError (KStr key)), w).
Proof.
  intros Hnone. unfold groups_of in Hnone.
  destruct (mapM _ _) as [segs |] eqn:Hsegs; [discriminate Hnone |]. clear Hnone.
  unfold build_optimizer. fold (unwrap model). cbv zeta. unfold bind at 1.
  match goal with
  | |- context [for_each _ ?body []] =>
      assert (Hloop : forall nps acc,
                mapM (groups_for (LR cfg)) nps = None ->
                exists n p key,
                  (n, p) ∈ nps /\ requires_grad p = true /\
                  key ∈ group_keys n /\ LR cfg !! key = None /\
                  for_each nps body acc w = (Raised (KeyError (KStr key)), w))
  end.
  { induction nps as [| np nps IH]; intros acc Hnps; [discriminate Hnps |].
    apply mapM_cons_None in Hnps as [Hnp | (seg & Hseg & Hrest)].
    - destruct (parameter_raises cfg np w Hnp) as (key & Hkey & Hlook & Hbody).
      destruct np as [n p]. exists n, p, key.
      assert (Htrain : requires_grad p = true).
      { unfold groups_for in Hnp. simpl in Hnp. now destruct (requires_grad p). }
      repeat split; [apply elem_of_cons; now left | assumption .. |].
      cbn [for_each]. unfold bind at 1. specialize (Hbody acc).
      match goal with
      | |- (let (_, _) := ?run in _) = _ =>
          replace run with (@Raised (list param_group) (KeyError (KStr key)), w)
            by (symmetry; exact Hbody)
      end.
      reflexivity.
    - destruct (IH (acc ++ seg) Hrest) as (n & p & key & Hin & Htrain & Hkey & Hlook & Hrun).
      exists n, p, key. repeat split; [apply elem_of_cons; now right | assumption .. |].
      cbn [for_each]. unfold bind at 1.
      pose proof (parameter_appends cfg np acc seg w Hseg) as Hbody.
      match goal with
      | |- (let (_, _) := ?run in _) = _ =>
          replace run with (Returned (acc ++ seg), w) by (symmetry; exact Hbody)
      end.
      exact Hrun. }
  destruct (Hloop _ [] Hsegs) as (n & p & key & Hin & Htrain & Hkey & Hlook & Hrun).
  exists n, p, key. repeat split; try assumption. rewrite Hrun. reflexivity.
Qed.

End BuildOptimizerMissingRate.

Module BuildOptimizerEdgeExamples.

Import Toy BuildOptimizerInputs BuildOptimizerEdgeInputs.

(** X9 on [nested_heads], which has one frozen parameter. *)
Lemma build_optimizer_groups_trainable_witness :
  exists groups,
    build_optimizer library all_rates (Plain nested_heads) (world_of [])
    = (sgd groups 0.001%Q (tltd (OPTIM_ARGS all_rates)), looked_up) /\
    (forall g, g ∈ groups ->
       requires_grad (params g) = true /\
       exists n key,
         (n, params g) ∈ named_parameters (unwrap (Plain nested_heads)) /\
         key ∈ group_keys n /\ LR all_rates !! key = Some (lr g)) /\
    (forall n p, (n, p) ∈ named_parameters (unwrap (Plain nested_heads)) ->
       requires_grad p = true -> exists g, g ∈ groups /\ params g = p).
Proof.
  apply (build_optimizer_groups_trainable library all_rates (Plain nested_heads)
           (world_of []) sgd 0.001%Q); try reflexivity.
  eexists. reflexivity.
Defined.

(** X10 on an unregistered optimizer name and on a config without a
    base rate. *)
Lemma build_optimizer_cannot_construct_witness :
  build_optimizer library unregistered (Plain nested_heads) (world_of [])
    = (Raised (NotFound Optimizers "AdamW"),
       {| fs := fs (world_of []); trace := [EvGet Optimizers "AdamW"] |}) /\
  build_optimizer library no_base (Plain backbone_only) (world_of [])
    = (Raised (AttributeError "base"), looked_up).
Proof.
  split.
  - apply (proj1 (build_optimizer_cannot_construct library unregistered (Plain nested_heads)
                    (world_of []) ltac:(eexists; reflexivity))).
    reflexivity.
  - apply (proj2 (build_optimizer_cannot_construct library no_base (Plain backbone_only)
                    (world_of []) ltac:(eexists; reflexivity))).
    + eexists. reflexivity.
    + reflexivity.
Defined.

(** X11 on [two_rates], which has no encoder rate, and [nested_heads]. *)
Lemma build_optimizer_missing_rate_witness :
  build_optimizer library two_rates (Plain nested_heads) (world_of [])
    = (Raised (KeyError (KStr "encoder")), world_of []) /\
  exists n p key,
    (n, p) ∈ named_parameters (unwrap (Plain nested_heads)) /\ requires_grad p = true /\
    key ∈ group_keys n /\ LR two_rates !! key = None /\
    build_optimizer library two_rates (Plain nested_heads) (world_of [])
    = (Raised (KeyError (KStr key)), world_of []).
Proof.
  split; [vm_compute; reflexivity |].
  apply (build_optimizer_missing_rate library two_rates (Plain nested_heads) (world_of [])).
  reflexivity.
Defined.

End BuildOptimizerEdgeExamples.

(** ** [build_model]: the required parts and the criterions *)

Section BuildModelEdgeProps.

Context `{OS}.

Variable R : registries.

(** The loop over [CRITERIONS] stores one entry per item, in order. *)
Lemma criterion_loop_fills (items : list criterion_cfg)
    (acc : gmap string criterion_entry) (P : event -> Prop) :
  (forall n, P (EvGet Criterions n)) ->
  builds
    (for_each items
       (fun item criterions =>
          fn <- build_criterion R item ;;
          ret (<[name item := {| fn := fn; cw := w item |}]> criterions))
       acc)
    P
    (fun losses =>
       exists entries, Forall2 (criterion_built R) items entries /\ losses = fill entries acc).
Proof.
  intros HP. revert acc. induction items as [| item items IH]; intros acc.
  - apply builds_ret. exists []. split; [constructor | reflexivity].
  - cbn [for_each].
    apply builds_bind
      with (Q1 := fun acc' => exists entry, criterion_built R item entry /\
                                            acc' = <[entry.1 := entry.2]> acc).
    + apply builds_bind
        with (Q1 := fun made => exists builder,
                      criterions R !! name item = Some builder /\
                      builder (tltd (args item)) = Returned made).
      * unfold build_criterion.
        apply builds_bind
          with (Q1 := fun builder => criterions R !! name item = Some builder).
        -- apply builds_get; [apply HP | tauto].
        -- intros builder Hbuilder. apply builds_lift. intros made Hmade.
           now exists builder.
      * intros made (builder & Hbuilder & Hmade). apply builds_ret.
        exists (name item, {| fn := made; cw := w item |}). split; [| reflexivity].
        repeat split. now exists builder.
    + intros acc' (entry & Hentry & ->).
      eapply builds_weaken; [apply IH | tauto |].
      intros losses (entries & Hentries & ->).
      exists (entry :: entries). split; [now constructor | reflexivity].
Qed.

(** X12.  A model comes out of [build_model] only if the backbone, the
    head, every criterion and the model itself are registered under the
    configured names.  It is then the registered model constructor's
    result on the backbone made from [BACKBONE.ARGS], the head made from
    [CLASS_NUM] and [HEADS.ARGS], and the dictionary of criterions filled
    in the order of [CRITERIONS] (a later item replaces an earlier one of
    the same name), each entry holding the criterion made by its
    registered constructor and the item's weight. *)
Theorem build_model_required_parts (cfg : model_cfg) :
  builds (build_model R cfg) (fun _ => True)
    (fun model =>
       exists model_builder backbone_builder backbone head_builder head encoder neck
              entries,
         backbones R !! NAME (BACKBONE cfg) = Some backbone_builder /\
         backbone_builder (tltd (ARGS (BACKBONE cfg))) = Returned backbone /\
         heads R !! NAME (HEADS cfg) = Some head_builder /\
         head_builder (CLASS_NUM cfg) (tltd (ARGS (HEADS cfg))) = Returned head /\
         Forall2 (criterion_built R) (CRITERIONS cfg) entries /\
         models R !! MODEL_NAME cfg = Some model_builder /\
         model_builder cfg backbone encoder neck head (fill entries ∅) = Returned model).
Proof.
  unfold build_model.
  apply builds_bind
    with (Q1 := fun b => backbones R !! NAME (BACKBONE cfg) = Some b);
    [apply builds_get; tauto |]. intros backbone_builder Hbb.
  apply builds_bind
    with (Q1 := fun x => backbone_builder (tltd (ARGS (BACKBONE cfg))) = Returned x);
    [apply builds_lift; tauto |]. intros backbone Hbackbone.
  apply builds_bind with (Q1 := fun _ => True);
    [eapply builds_weaken; [apply (builds_optional_part Encoders) with (P := fun _ => True) | ..];
     tauto |]. intros encoder _.
  apply builds_bind with (Q1 := fun _ => True);
    [eapply builds_weaken; [apply (builds_optional_part Necks) with (P := fun _ => True) | ..];
     tauto |]. intros neck _.
  apply builds_bind
    with (Q1 := fun b => heads R !! NAME (HEADS cfg) = Some b);
    [apply builds_get; tauto |]. intros head_builder Hhb.
  apply builds_bind
    with (Q1 := fun x => head_builder (CLASS_NUM cfg) (tltd (ARGS (HEADS cfg))) = Returned x);
    [apply builds_lift; tauto |]. intros head Hhead.
  apply builds_bind
    with (Q1 := fun losses =>
                  exists entries, Forall2 (criterion_built R) (CRITERIONS cfg) entries /\
                                  losses = fill entries ∅);
    [apply criterion_loop_fills; tauto |]. intros losses (entries & Hentries & ->).
  apply builds_bind with (Q1 := fun b => models R !! MODEL_NAME cfg = Some b);
    [apply builds_get; tauto |]. intros model_builder Hmodel.
  apply builds_lift. intros model Hbuilt.
  now exists model_builder, backbone_builder, backbone, head_builder, head, encoder, neck,
             entries.
Qed.

(** X13.  An unregistered backbone name stops [build_model] at its first
    step: the registry's NotFound error is raised after that one lookup.
    An unregistered head name lets no run return a model, and no run
    reaches the criterion or model registries. *)
Theorem build_model_unregistered_part (cfg : model_cfg) (w : World) :
  (backbones R !! NAME (BACKBONE cfg) = None ->
   build_model R cfg w
   = (Raised (NotFound Backbones (NAME (BACKBONE cfg))),
      {| fs := fs w; trace := trace w ++ [EvGet Backbones (NAME (BACKBONE cfg))] |})) /\
  (heads R !! NAME (HEADS cfg) = None ->
   builds (build_model R cfg)
     (fun ev => not_get Criterions ev /\ not_get Models ev)
     (fun _ => False)).
Proof.
  split.
  - intros Hnone. unfold build_model. unfold bind at 1. unfold get_backbone.
    rewrite (get_unregistered Backbones _ _ w Hnone). reflexivity.
  - intros Hnone.
    assert (Hearly : forall kind name,
              kind <> Criterions -> kind <> Models ->
              not_get Criterions (EvGet kind name) /\ not_get Models (EvGet kind name)).
    { intros kind name Hc Hm. split; intros name' [= -> _]; contradiction. }
    unfold build_model.
    apply builds_bind with (Q1 := fun _ => True);
      [apply builds_get; [now apply Hearly | tauto] |]. intros backbone_builder _.
    apply builds_bind with (Q1 := fun _ => True); [now apply builds_lift |].
    intros backbone _.
    apply builds_bind with (Q1 := fun _ => True);
      [apply builds_weaken
         with (P := fun ev => not_get Criterions ev /\ not_get Models ev)
              (Q := optional_part (encoders R) (ENCODER cfg));
       [apply (builds_optional_part Encoders); intros _; now apply Hearly
       | tauto | tauto] |].
    intros encoder _.
    apply builds_bind with (Q1 := fun _ => True);
      [apply builds_weaken
         with (P := fun ev => not_get Criterions ev /\ not_get Models ev)
              (Q := optional_part (necks R) (NECKS cfg));
       [apply (builds_optional_part Necks); intros _; now apply Hearly
       | tauto | tauto] |].
    intros neck _.
    apply builds_bind with (Q1 := fun _ => False).
    + apply builds_get; [now apply Hearly |]. intros b Hb.
      rewrite Hnone in Hb. discriminate Hb.
    + intros head_builder [].
Qed.

End BuildModelEdgeProps.

Module BuildModelEdgeExamples.

Import Toy BuildModelInputs BuildModelEdgeInputs.

(** X13 on an unregistered backbone and on an unregistered head. *)
Lemma build_model_unregistered_part_witness :
  build_model library unknown_backbone (world_of [])
    = (Raised (NotFound Backbones "vit"),
       {| fs := fs (world_of []); trace := [EvGet Backbones "vit"] |}) /\
  build_model library unknown_head (world_of [])
    = (Raised (NotFound Heads "classifier_2fc"),
       {| fs := fs (world_of []);
          trace := [EvGet Backbones "resnet50"; EvGet Encoders "global_max_pooling";
                    EvGet Heads "classifier_2fc"] |}) /\
  builds (build_model library unknown_head)
    (fun ev => not_get Criterions ev /\ not_get Models ev)
    (fun _ => False).
Proof.
  split; [| split].
  - apply (proj1 (build_model_unregistered_part library unknown_backbone (world_of []))).
    reflexivity.
  - vm_compute. reflexivity.
  - apply (proj2 (build_model_unregistered_part library unknown_head (world_of []))).
    reflexivity.
Defined.

End BuildModelEdgeExamples.
